(** * CompanionDogAI: the scoring core of the kennel-cough risk prototype

    A shallow embedding of the four analysis functions of the repository,

      - [run_audio]  (audio_test.py): peak picking over a smoothed RMS envelope,
      - [run_vision] (vision_test.py): decision rule over detector output,
      - [run_text]   (text_prototype.py): rule-based symptom scorer,
      - [run_fusion] (fusion_test.py): weighted sum and risk label,

    followed by the properties stated about them.

    Conventions of the embedding.

      - Python floats are embedded as exact rationals [Q]: every arithmetic
        operation and comparison of the source is the corresponding exact
        operation.  Binary64 rounding error is not part of the model.
      - [round(x, n)] is exact rounding to [n] decimals, ties to even.
      - Python dictionaries read with [.get(key, default)] are records whose
        fields are options; dictionaries built by [return {...}] are records.
      - Text is a sequence of bytes, the UTF-8 encoding of the Python
        [str]; for a text of ASCII characters that is the text itself.  The
        character classes ([\s], [\w], [\b], [strip()], [lower()]) are those
        of Python's [str] on ASCII characters, where the model and Python
        agree.  On other characters Python follows the Unicode tables (a
        no-break space is white space, an accented letter is a word
        character, [lower()] maps the Kelvin sign to "k"), which are not
        part of the model: a property stated for all notes carries the
        hypothesis [is_ascii], and the notes evaluated here are ASCII.
      - The calls into librosa ([load], [feature.rms]) and into the object
        detector are outside the repository: their results are the inputs
        of [run_audio] and [run_vision]. *)

From Stdlib Require Import ZArith QArith Qround Qabs Qminmax.
From Stdlib Require Import Lia Lqa Bool List String Ascii.
From Stdlib Require Import Permutation.
Import ListNotations.

Local Open Scope Q_scope.

(* ================================================================== *)
(** * Part I: the embedding                                            *)
(* ================================================================== *)

(** ** Python built-ins on numbers *)

Module Py.

Definition Qltb (x y : Q) : bool := negb (Qle_bool y x).
Definition Qleb (x y : Q) : bool := Qle_bool x y.

(** [max(a, b)]: the first argument unless the second is strictly larger. *)
Definition max2 (a b : Q) : Q := if Qltb a b then b else a.

(** [min(a, b)]: the first argument unless the second is strictly smaller. *)
Definition min2 (a b : Q) : Q := if Qltb b a then b else a.

Fixpoint max_from (m : Q) (l : list Q) : Q :=
  match l with
  | [] => m
  | x :: l' => max_from (max2 m x) l'
  end.

(** [max(l, default=d)] *)
Definition max_default (l : list Q) (d : Q) : Q :=
  match l with
  | [] => d
  | x :: l' => max_from x l'
  end.

(** Nearest integer, ties to the even one. *)
Definition round_half_even (q : Q) : Z :=
  let f := Qfloor q in
  match Qcompare (q - inject_Z f) (1 # 2) with
  | Lt => f
  | Gt => (f + 1)%Z
  | Eq => if Z.even f then f else (f + 1)%Z
  end.

Definition pow10 (n : nat) : Z := (10 ^ Z.of_nat n)%Z.

(** [round(q, n)] *)
Definition round (q : Q) (n : nat) : Q :=
  Qred (inject_Z (round_half_even (q * inject_Z (pow10 n))) / inject_Z (pow10 n)).

(** [int(q)]: truncation towards zero. *)
Definition int (q : Q) : Z :=
  if Qle_bool 0 q then Qfloor q else Qceiling q.

(** [sum(l)]: left to right from 0. *)
Definition sum (l : list Q) : Q := fold_left Qplus l 0.

(** [d.get(key, default)] on an optional field. *)
Definition get {A : Type} (field : option A) (default : A) : A :=
  match field with
  | Some x => x
  | None => default
  end.

(** Truth value of [d.get(key)] for a Boolean field: a missing key gives
    [None], which is false. *)
Definition truthy (field : option bool) : bool := get field false.

(** [sep.join(l)] *)
Definition join (sep : string) (l : list string) : string := String.concat sep l.

End Py.

(** ** fusion_test.py *)

Module Fusion.

(** The dictionaries [run_fusion] reads; a field is [None] when the key is
    absent. *)
Record audio_dict := { cough_score : option Q }.
Record vision_dict := { dog_detected : option bool; dog_conf : option Q }.
Record text_dict := { severity_score : option Q; keywords : option (list string) }.

Inductive level := Low | Medium | High.

Record result := {
  risk_score : Q;
  risk_level : level;
  explanation : list string
}.

(** The weighted sum of line 112. *)
Definition weighted_sum (a v t : Q) : Q := (0.6 * a) + (0.2 * v) + (0.2 * t).

(** The [if]/[elif]/[else] of lines 114-119. *)
Definition level_of (risk : Q) : level :=
  if Py.Qltb 0.5 risk then High
  else if Py.Qleb 0.2 risk then Medium
  else Low.

Definition run_fusion (audio_out : audio_dict) (vision_out : vision_dict)
                      (text_out : text_dict) : result :=
  let a := Py.get (cough_score audio_out) 0.0 in
  let v := if Py.truthy (dog_detected vision_out)
           then Py.get (dog_conf vision_out) 0.0 else 0.0 in
  let t := Py.get (severity_score text_out) 0.0 in
  let risk := weighted_sum a v t in
  let level := level_of risk in
  let explanation := [] in
  let explanation :=
    if Py.Qleb 0.6 a
    then explanation ++ ["Audio: cough-like events detected."%string]
    else explanation in
  let explanation :=
    if Py.truthy (dog_detected vision_out)
    then explanation ++ ["Vision: dog detected in image."%string]
    else explanation in
  let explanation :=
    if Py.Qltb 0 t
    then explanation ++
         [String.append "Text: symptoms mentioned ("
            (String.append (Py.join ", " (Py.get (keywords text_out) [])) ").")]
    else explanation in
  let explanation :=
    match explanation with
    | [] => ["No strong signals found from inputs."%string]
    | _ => explanation
    end in
  {| risk_score := Py.round risk 3;
     risk_level := level;
     explanation := explanation |}.

(** The inputs of the claims: all keys present. *)
Definition audio_of (a : Q) : audio_dict := {| cough_score := Some a |}.
Definition vision_of (d : bool) (v : Q) : vision_dict :=
  {| dog_detected := Some d; dog_conf := Some v |}.
Definition text_of (t : Q) (kw : list string) : text_dict :=
  {| severity_score := Some t; keywords := Some kw |}.

End Fusion.

(** ** vision_test.py *)

Module Vision.

(** One element of the detector output: class name, confidence and the
    corners [x1, y1, x2, y2] of the box. *)
Record detection := {
  det_label : string;
  det_conf : Q;
  det_box : Q * Q * Q * Q
}.

Record result := {
  dog_detected : bool;
  dog_conf : Q;
  car_conf : Q;
  best_area_ratio : Q;
  detected : list (string * Q * Q)
}.

Definition DOG_STRONG : Q := 0.70.
Definition DOG_GREY : Q := 0.60.
Definition CAR_VETO : Q := 0.60.
Definition MIN_AREA_RATIO : Q := 0.03.

(** [area / img_area] of lines 73-75. *)
Definition area_ratio (img_area : positive) (d : detection) : Q :=
  let '(x1, y1, x2, y2) := det_box d in
  let area := Py.max2 0.0 ((x2 - x1) * (y2 - y1)) in
  area / inject_Z (Zpos img_area).

(** What the loop of lines 69-83 carries from one box to the next. *)
Record loop_state := {
  st_detected : list (string * Q * Q);
  st_dog_candidates : list (Q * Q);
  st_car_conf : Q
}.

Definition loop_body (img_area : positive) (st : loop_state) (d : detection)
  : loop_state :=
  let label := det_label d in
  let conf := det_conf d in
  let ratio := area_ratio img_area d in
  let detected := st_detected st ++ [(label, Py.round conf 3, Py.round ratio 3)] in
  let car_conf := if String.eqb label "car"
                  then Py.max2 (st_car_conf st) conf
                  else st_car_conf st in
  let dog_candidates := if String.eqb label "dog"
                        then st_dog_candidates st ++ [(conf, ratio)]
                        else st_dog_candidates st in
  {| st_detected := detected;
     st_dog_candidates := dog_candidates;
     st_car_conf := car_conf |}.

(** The decision of lines 89-101 on the three tracked numbers. *)
Definition decide (dog_conf best_area car_conf : Q) : bool :=
  let dog_detected := false in
  let dog_detected :=
    if Py.Qleb DOG_STRONG dog_conf && Py.Qleb MIN_AREA_RATIO best_area then true
    else if Py.Qleb DOG_GREY dog_conf && Py.Qleb 0.06 best_area then true
    else dog_detected in
  if Py.Qleb CAR_VETO car_conf && Py.Qltb dog_conf 0.85 then false
  else dog_detected.

(** [boxes] is [r.boxes] (an absent [r.boxes] behaves like the empty list),
    [h] and [w] are [r.orig_shape]. *)
Definition run_vision (boxes : list detection) (h w : positive) : result :=
  let img_area := (w * h)%positive in
  let st := fold_left (loop_body img_area) boxes
              {| st_detected := []; st_dog_candidates := []; st_car_conf := 0.0 |} in
  let dog_conf := Py.max_default (map fst (st_dog_candidates st)) 0.0 in
  let best_area := Py.max_default (map snd (st_dog_candidates st)) 0.0 in
  let car_conf := st_car_conf st in
  {| dog_detected := decide dog_conf best_area car_conf;
     dog_conf := Py.round dog_conf 3;
     car_conf := Py.round car_conf 3;
     best_area_ratio := Py.round best_area 3;
     detected := st_detected st |}.

(** *** Vocabulary of the statements *)

Definition dogs (boxes : list detection) : list detection :=
  filter (fun d => String.eqb (det_label d) "dog") boxes.

Definition cars (boxes : list detection) : list detection :=
  filter (fun d => String.eqb (det_label d) "car") boxes.

(** [m] is (as a number) the greatest element of [l], or [d] when [l] is
    empty. *)
Definition greatest_or (l : list Q) (d m : Q) : Prop :=
  (l = [] /\ m == d) \/
  ((exists y, In y l /\ y == m) /\ forall x, In x l -> x <= m).

(** The confidences of the dogs, the area ratios of the dogs and the
    confidences of the cars, each list on its own. *)
Definition dog_confs (boxes : list detection) : list Q := map det_conf (dogs boxes).
Definition dog_ratios (img_area : positive) (boxes : list detection) : list Q :=
  map (area_ratio img_area) (dogs boxes).
Definition car_confs (boxes : list detection) : list Q := map det_conf (cars boxes).

(** The rule in the words of the specification, on a dog confidence [c],
    an area ratio [r] and a car confidence [k]. *)
Definition rule (c r k : Q) : Prop :=
  ((0.70 <= c /\ 0.03 <= r) \/ (0.60 <= c /\ 0.06 <= r)) /\
  ~ (0.60 <= k /\ c < 0.85).




(** *** An input: two dogs in a 100 x 100 image *)




End Vision.

(** ** audio_test.py *)

Module Audio.

Record result := {
  cough_score : Q;
  events : nat;
  timestamps : list Q
}.

Definition frame_length : Z := 2048.
Definition hop_length : Z := 1024.

(** *** The numpy calls of lines 109-114 *)

(** Sum of two coefficient lists, the shorter one padded with zeros. *)
Fixpoint add_coeffs (p q : list Q) : list Q :=
  match p, q with
  | [], _ => q
  | _, [] => p
  | x :: p', y :: q' => (x + y) :: add_coeffs p' q'
  end.

(** The full discrete convolution: entry [k] is the sum of the products
    [a[i] * v[k - i]]; its length is [len(a) + len(v) - 1]. *)
Fixpoint convolve_full (a v : list Q) : list Q :=
  match a with
  | [] => []
  | x :: a' => add_coeffs (map (Qmult x) v) (0 :: convolve_full a' v)
  end.

(** [np.convolve(a, v, mode="same")]: the slice of the full convolution of
    length [max(len(a), len(v))] that starts [n - 1 - n / 2] entries in,
    [n] being the shorter length; an empty argument raises [ValueError],
    which is [None] here. *)
Definition np_convolve_same (a v : list Q) : option (list Q) :=
  match a, v with
  | [], _ | _, [] => None
  | _, _ =>
      let n1 := Nat.max (List.length a) (List.length v) in
      let n2 := Nat.min (List.length a) (List.length v) in
      Some (firstn n1 (skipn (n2 - 1 - n2 / 2) (convolve_full a v)))
  end.

(** [np.ones(win) / win] *)
Definition ones_over (win : nat) : list Q :=
  repeat (1 / inject_Z (Z.of_nat win)) win.

Fixpoint insert_sorted (x : Q) (l : list Q) : list Q :=
  match l with
  | [] => [x]
  | y :: l' => if Qle_bool x y then x :: l else y :: insert_sorted x l'
  end.

Definition sort (l : list Q) : list Q := fold_right insert_sorted [] l.

(** [np.median] of a non-empty array: the middle element of the sorted
    array, or the mean of the two middle ones.  (It is only called on the
    smoothed envelope, whose length is at least 5.) *)
Definition np_median (l : list Q) : Q :=
  let s := sort l in
  let n := List.length s in
  if Nat.even n
  then (nth (n / 2 - 1) s 0 + nth (n / 2) s 0) / 2
  else nth (n / 2) s 0.

(** *** [detect_peaks], lines 120-131 *)

Definition is_peak (rms_smooth : list Q) (thr : Q) (i : nat) : bool :=
  Py.Qltb thr (nth i rms_smooth 0) &&
  Py.Qltb (nth (i - 1) rms_smooth 0) (nth i rms_smooth 0) &&
  Py.Qltb (nth (i + 1) rms_smooth 0) (nth i rms_smooth 0).

(** One iteration of the loop; [peaks[-1]] is [last peaks]. *)
Definition peak_step (rms_smooth : list Q) (min_distance_frames : Z) (thr : Q)
                     (peaks : list nat) (i : nat) : list nat :=
  if is_peak rms_smooth thr i then
    if (List.length peaks =? 0)%nat
       || (min_distance_frames <=? Z.of_nat i - Z.of_nat (last peaks 0%nat))%Z
    then peaks ++ [i]
    else peaks
  else peaks.

(** [range(1, len(rms_smooth) - 1)] *)
Definition inner_indices (rms_smooth : list Q) : list nat :=
  seq 1 (List.length rms_smooth - 2).

Definition detect_peaks (rms_smooth : list Q) (min_distance_frames : Z) (thr : Q)
  : list nat :=
  fold_left (peak_step rms_smooth min_distance_frames thr)
            (inner_indices rms_smooth) [].

(** The loop of lines 140-144: the first threshold with a peak wins. *)
Fixpoint try_thresholds (detect : Q -> list nat) (thresholds : list Q)
                        (peak_indices : list nat) : list nat :=
  match thresholds with
  | [] => peak_indices
  | thr :: rest =>
      let peak_indices := detect thr in
      if (0 <? List.length peak_indices)%nat then peak_indices
      else try_thresholds detect rest peak_indices
  end.

(** [int(min_event_distance_s * sr / hop_length)] *)
Definition min_distance_frames (sr : positive) : Z :=
  let min_event_distance_s := 0.5 in
  Py.int (min_event_distance_s * inject_Z (Zpos sr) / inject_Z hop_length).

(** [len(y) / sr], line 152. *)
Definition duration (len_y : N) (sr : positive) : Q :=
  inject_Z (Z.of_N len_y) / inject_Z (Zpos sr).

(** The seconds of a frame index before rounding, line 147. *)
Definition frame_time (sr : positive) (i : nat) : Q :=
  (inject_Z (Z.of_nat i) * inject_Z hop_length) / inject_Z (Zpos sr).

(** Lines 152-165. *)
Definition score (num_events : nat) (duration_s : Q) : Q :=
  let n := inject_Z (Z.of_nat num_events) in
  let events_per_10s := n / Py.max2 (1 # 1000000000) (duration_s / 10.0) in
  let rate_score := Py.min2 1.0 (events_per_10s / 6.0) in
  let count_score := Py.min2 1.0 (n / 25.0) in
  let raw_score := Py.min2 1.0 (0.5 * rate_score + 0.5 * count_score) in
  if (num_events <? 4)%nat then raw_score * 0.4 else raw_score.

(** The smoothed envelope, lines 108-110. *)
Definition smooth (rms : list Q) : option (list Q) :=
  let win := 5%nat in
  np_convolve_same rms (ones_over win).

(** The peak indices, lines 112-144. *)
Definition find_peaks (rms_smooth : list Q) (sr : positive) : list nat :=
  let med := np_median rms_smooth in
  let mad :=
    np_median (map (fun x => Qabs (x - med)) rms_smooth) + (1 # 1000000000) in
  let thresholds := [med + 10.0 * mad; med + 8.0 * mad; med + 6.0 * mad] in
  try_thresholds (detect_peaks rms_smooth (min_distance_frames sr)) thresholds [].

(** [run_audio] from the results of the two librosa calls on: [len_y] and
    [sr] describe what [librosa.load] returned, [rms] is the row returned by
    [librosa.feature.rms].  [None] is the exception numpy raises. *)
Definition run_audio (len_y : N) (sr : positive) (rms : list Q) : option result :=
  match smooth rms with
  | None => None
  | Some rms_smooth =>
      let peak_indices := find_peaks rms_smooth sr in
      let cough_timestamps :=
        map (fun i => Py.round (frame_time sr i) 2) peak_indices in
      let num_events := List.length cough_timestamps in
      let duration_s := duration len_y sr in
      let risk_score := score num_events duration_s in
      Some {| cough_score := Py.round risk_score 3;
              events := num_events;
              timestamps := cough_timestamps |}
  end.

(** *** Vocabulary of the statements *)

(** Neighbouring entries of [l] are at least [gap] apart. *)
Fixpoint spaced (gap : Q) (l : list Q) : Prop :=
  match l with
  | [] => True
  | x :: l' =>
      match l' with
      | [] => True
      | y :: _ => gap <= y - x /\ spaced gap l'
      end
  end.


(** Every entry is the number zero. *)
Definition all_zero (l : list Q) : Prop := Forall (fun x => x == 0) l.

(** Neighbouring frame indices are at least [D] and at least 2 apart. *)
Fixpoint gapped (D : Z) (l : list nat) : Prop :=
  match l with
  | [] => True
  | x :: l' =>
      match l' with
      | [] => True
      | y :: _ => (D <= Z.of_nat y - Z.of_nat x)%Z /\ (x + 2 <= y)%nat /\ gapped D l'
      end
  end.

(** What the loop of [detect_peaks] maintains: every collected index is a
    peak below the next index to visit, and the collected indices are
    [gapped]. *)
Definition collected (rms_smooth : list Q) (D : Z) (thr : Q)
                     (next : nat) (peaks : list nat) : Prop :=
  Forall (fun x => is_peak rms_smooth thr x = true /\ (x < next)%nat) peaks /\
  gapped D peaks.

(** *** Two clips *)

(** The RMS frames of a burst: four hop-sized blocks of which half the
    samples have the amplitudes 0.06, 0.08, 0.06 and 0.08, in frames of two
    blocks each. *)
Definition burst : list Q := [0.03; 0.05; 0.05; 0.05; 0.04].

(** 60 frames (60416 samples) with one burst centred on frame 7. *)
Definition one_burst : list Q := repeat 0 5 ++ burst ++ repeat 0 50.

(** 60 frames with bursts centred on frames 7 and 17. *)
Definition two_bursts : list Q :=
  repeat 0 5 ++ burst ++ repeat 0 5 ++ burst ++ repeat 0 40.

End Audio.

(** ** text_prototype.py *)

Module Text.

Local Open Scope char_scope.
Local Open Scope string_scope.

Record result := {
  keywords : list string;
  modifiers_detected : list string;
  severity_score : Q;
  notes : string
}.

(** *** Characters *)

Definition code (c : ascii) : nat := nat_of_ascii c.

Definition between (lo hi : nat) (c : ascii) : bool :=
  (lo <=? code c)%nat && (code c <=? hi)%nat.

(** [\w] on ASCII characters: letters, digits and the underscore. *)
Definition is_word (c : ascii) : bool :=
  between 97 122 c || between 65 90 c || between 48 57 c || Ascii.eqb c "_".

(** [\s] and the characters [strip()] removes, on ASCII characters: tab to
    carriage return, the four separators 28-31 and the space. *)
Definition is_space (c : ascii) : bool :=
  between 9 13 c || between 28 31 c || Ascii.eqb c " ".

(** [lower()] on an ASCII character. *)
Definition lower_char (c : ascii) : ascii :=
  if between 65 90 c then ascii_of_nat (code c + 32) else c.

Definition text := list ascii.

Definition chars (s : string) : text := list_ascii_of_string s.


Definition lower (t : text) : text := map lower_char t.

Fixpoint lstrip (t : text) : text :=
  match t with
  | [] => []
  | c :: t' => if is_space c then lstrip t' else t
  end.

Definition rstrip (t : text) : text := rev (lstrip (rev t)).

Definition strip (t : text) : text := rstrip (lstrip t).

(** *** The fragment of [re] the patterns use *)

Inductive regex :=
| Lit (s : string)            (** the characters of [s] *)
| Boundary                    (** [\b] *)
| Spaces                      (** [\s+] *)
| Opt (r : regex)             (** [r?] *)
| Seq (r1 r2 : regex)
| Alt (r1 r2 : regex).        (** [r1|r2] *)

(** [\b] holds between a word character and a non-word character, the two
    ends of the text counting as non-word. *)
Definition word_before (prev : option ascii) : bool :=
  match prev with Some c => is_word c | None => false end.

Definition word_after (t : text) : bool :=
  match t with c :: _ => is_word c | [] => false end.

Definition at_boundary (prev : option ascii) (t : text) : bool :=
  xorb (word_before prev) (word_after t).

Fixpoint match_lit (l : text) (prev : option ascii) (t : text)
  : option (option ascii * text) :=
  match l with
  | [] => Some (prev, t)
  | c :: l' =>
      match t with
      | [] => None
      | d :: t' => if Ascii.eqb c d then match_lit l' (Some d) t' else None
      end
  end.

(** One or more white-space characters, then the continuation [k]; the
    longest run is tried first. *)
Fixpoint match_spaces (prev : option ascii) (t : text)
                      (k : option ascii -> text -> bool) : bool :=
  match t with
  | [] => false
  | c :: t' => is_space c && (match_spaces (Some c) t' k || k (Some c) t')
  end.

(** A backtracking matcher: [match_re r prev t k] holds when [r] matches a
    prefix of [t] ([prev] being the character before [t]) after which [k]
    accepts the rest. *)
Fixpoint match_re (r : regex) (prev : option ascii) (t : text)
                  (k : option ascii -> text -> bool) : bool :=
  match r with
  | Lit s =>
      match match_lit (chars s) prev t with
      | Some (prev', t') => k prev' t'
      | None => false
      end
  | Boundary => at_boundary prev t && k prev t
  | Spaces => match_spaces prev t k
  | Opt r1 => match_re r1 prev t k || k prev t
  | Seq r1 r2 => match_re r1 prev t (fun prev' t' => match_re r2 prev' t' k)
  | Alt r1 r2 => match_re r1 prev t k || match_re r2 prev t k
  end.

Fixpoint search_from (r : regex) (prev : option ascii) (t : text) : bool :=
  match_re r prev t (fun _ _ => true) ||
  match t with
  | [] => false
  | c :: t' => search_from r (Some c) t'
  end.

(** [re.search(r, t)] as a truth value. *)
Definition re_search (r : regex) (t : text) : bool := search_from r None t.

(** [rf"\b{pat}\b"] *)
Definition whole_word (pat : string) : regex :=
  Seq Boundary (Seq (Lit pat) Boundary).

(** [rf"\b<cue>\s+{term}\b"] *)
Definition cue_then (cue : regex) (term : string) : regex :=
  Seq Boundary (Seq cue (Seq Spaces (Seq (Lit term) Boundary))).

(** The right single quotation mark U+2019 in UTF-8. *)
Definition rsquo : string :=
  String (ascii_of_nat 226) (String (ascii_of_nat 128) (String (ascii_of_nat 153) "")).

(** ['’]? *)
Definition opt_apostrophe : regex := Opt (Alt (Lit "'") (Lit rsquo)).

(** The five cues of [is_negated], lines 126-132. *)
Definition negation_cues : list regex :=
  [ Lit "no";
    Lit "not";
    Lit "without";
    Seq (Lit "doesn") (Seq opt_apostrophe (Lit "t"));
    Seq (Lit "didn") (Seq opt_apostrophe (Lit "t")) ].

Definition is_negated (t : text) (term : string) : bool :=
  existsb (fun cue => re_search (cue_then cue term) t) negation_cues.

(** *** Concepts, lines 136-160 *)

Definition concepts : list (string * list string) :=
  [ ("cough", ["cough"; "coughing"; "hacking"; "hack"]);
    ("gagging", ["gag"; "gagging"; "retch"; "retching"]);
    ("sneeze", ["sneeze"; "sneezing"]);
    ("lethargy", ["lethargy"; "lethargic"; "low energy"; "tired"; "fatigue"; "weak"]);
    ("daycare", ["daycare"; "kennel"; "boarding"; "grooming"]);
    ("appetite_loss", ["not eating"; "loss of appetite"; "no appetite"; "poor appetite"]) ].

Definition symptom_concepts : list string :=
  ["cough"; "gagging"; "sneeze"; "lethargy"; "appetite_loss"].

Definition mem (x : string) (l : list string) : bool :=
  existsb (String.eqb x) l.

(** [pat.split()[0]]: the first run of characters that are not white
    space. *)
Fixpoint take_token (t : text) : text :=
  match t with
  | [] => []
  | c :: t' => if is_space c then [] else c :: take_token t'
  end.

Definition first_token (pat : string) : string :=
  string_of_list_ascii (take_token (lstrip (chars pat))).

(** The inner loop over the patterns of one concept: a matching pattern
    whose first token is negated is skipped ([continue]); the first other
    matching pattern ends the loop with [found = True]. *)
Fixpoint scan_patterns (t : text) (symptom : bool) (pats : list string) : bool :=
  match pats with
  | [] => false
  | pat :: rest =>
      if re_search (whole_word pat) t then
        if symptom && is_negated t (first_token pat)
        then scan_patterns t symptom rest
        else true
      else scan_patterns t symptom rest
  end.

Definition detect (t : text) : list string :=
  map fst
    (filter (fun cp => scan_patterns t (mem (fst cp) symptom_concepts) (snd cp))
            concepts).

(** [list(dict.fromkeys(l))]: the first occurrence of each element. *)
Fixpoint dedup (l : list string) : list string :=
  match l with
  | [] => []
  | x :: l' => x :: filter (fun y => negb (String.eqb x y)) (dedup l')
  end.

(** *** Intensity modifiers, lines 165-186 *)

Fixpoint any_of (rs : list regex) : regex :=
  match rs with
  | [] => Lit ""
  | [r] => r
  | r :: rs' => Alt r (any_of rs')
  end.

Definition any_word (ws : list string) : regex := any_of (map whole_word ws).

Definition modifier_rules : list (regex * string * Q) :=
  [ (any_word ["frequent"; "often"; "repeated"; "many"; "several"], "frequent", 0.15);
    (any_word ["multiple times"; "every day"; "daily"], "daily/multiple", 0.15);
    (any_word ["at night"; "night"; "keeping us up"], "night", 0.10);
    (any_word ["dry"; "hacking"; "choking"], "dry/hacking", 0.10) ].

(** The four [if] statements in sequence, on the pair
    ([modifiers], [intensity]). *)
Definition apply_modifier (t : text) (acc : list string * Q)
                          (rule : regex * string * Q) : list string * Q :=
  let '(r, name, w) := rule in
  if re_search r t then ((fst acc ++ [name])%list, snd acc + w) else acc.

(** *** Weights, lines 189-199 *)

Definition weights : list (string * Q) :=
  [ ("cough", 0.25); ("gagging", 0.20); ("sneeze", 0.10);
    ("lethargy", 0.20); ("daycare", 0.10); ("appetite_loss", 0.25) ].

(** [weights.get(k, default)] *)
Fixpoint weights_get (w : list (string * Q)) (k : string) (default : Q) : Q :=
  match w with
  | [] => default
  | (k', x) :: w' => if String.eqb k k' then x else weights_get w' k default
  end.

(** [owner_note] is a [str]; on it [owner_note or ""] is the identity. *)
Definition run_text (owner_note : string) : result :=
  let t := lower (strip (chars owner_note)) in
  match t with
  | [] =>
      {| keywords := [];
         modifiers_detected := [];
         severity_score := 0.0;
         notes := "No owner note provided" |}
  | _ =>
      let detected := detect t in
      let keywords := dedup detected in
      let '(modifiers, intensity) :=
        fold_left (apply_modifier t) modifier_rules ([], 0.0) in
      let severity :=
        Py.sum (map (fun k => weights_get weights k 0.10) keywords) + intensity in
      let severity_score := Py.min2 1.0 (Py.round severity 3) in
      {| keywords := keywords;
         modifiers_detected := modifiers;
         severity_score := severity_score;
         notes := "Rule-based NLP with negation + intensity modifiers (interpretable)" |}
  end.

End Text.

(** ** Vocabulary for the statements about [run_text] *)

Module TextSpec.

Import Text.











End TextSpec.

(** ** JSON values, as the scripts write and read them *)

Module Json.

Local Open Scope string_scope.

Inductive value :=
| Null
| Bool (b : bool)
| Num (q : Q)
| Str (s : string)
| Nums (l : list Q)
| Strs (l : list string).

(** A JSON object / Python [dict] with string keys, in insertion order. *)
Definition dict := list (string * value).

(** [d.get(key, None)] *)
Fixpoint get (d : dict) (key : string) : option value :=
  match d with
  | [] => None
  | (k, v) :: d' => if String.eqb key k then Some v else get d' key
  end.

(** [isinstance(s, (int, float))]: JSON numbers, and the Booleans, which are
    [int]s in Python ([True] is 1). *)
Definition number (s : option value) : option Q :=
  match s with
  | Some (Num q) => Some q
  | Some (Bool b) => Some (if b then 1 else 0)
  | _ => None
  end.

End Json.

(** ** audio_test.py: the script, from the detected frames on (lines 39-64) *)

Module AudioScript.

Local Open Scope string_scope.

Definition hop_length : Z := 512.

(** Lines 40-41. *)
Definition timestamps (sr : positive) (cough_frames : list nat) : list Q :=
  map (fun f => Py.round ((inject_Z (Z.of_nat f) * inject_Z hop_length)
                          / inject_Z (Zpos sr)) 2)
      cough_frames.

(** Line 48. *)
Definition risk_score (cough_timestamps : list Q) : Q :=
  Py.min2 1.0 (inject_Z (Z.of_nat (List.length cough_timestamps)) * 0.07).

(** Line 49. *)
Definition label (risk_score : Q) : string :=
  if Py.Qltb 0.6 risk_score then "High"
  else if Py.Qltb 0.3 risk_score then "Moderate"
  else "Low".

(** The dictionary written to [audio_analysis_<timestamp>.json], lines 57-64. *)
Definition analysis (sr : positive) (cough_frames : list nat) : Json.dict :=
  let cough_timestamps := timestamps sr cough_frames in
  let risk_score := risk_score cough_timestamps in
  [ ("risk_score", Json.Num risk_score);
    ("audio_risk_score", Json.Num risk_score);
    ("risk_label", Json.Str (label risk_score));
    ("sample_rate", Json.Num (inject_Z (Zpos sr)));
    ("num_cough_events",
       Json.Num (inject_Z (Z.of_nat (List.length cough_timestamps))));
    ("cough_timestamps", Json.Nums cough_timestamps) ]%string.

End AudioScript.

(** ** text_prototype.py: [analyze_owner_note], lines 8-59 *)

Module Note.

Local Open Scope string_scope.

Import Text.

Record result := {
  note : string;
  found_symptoms : list string;
  found_context : list string;
  found_severity : list string;
  text_risk_score : Q;
  text_risk_label : string
}.

Definition symptom_keywords : list string :=
  [ "cough"; "hacking"; "gagging"; "wheezing";
    "honking"; "choking"; "phlegm"; "mucus" ]%string.

Definition context_keywords : list string :=
  [ "daycare"; "shelter"; "boarding"; "grooming";
    "park"; "dog park"; "kennel" ]%string.

Definition severity_keywords : list string :=
  [ "lethargic"; "tired"; "not eating"; "no appetite";
    "weak"; "breathing fast"; "difficulty breathing" ]%string.

Fixpoint starts_with (w t : text) : bool :=
  match w with
  | [] => true
  | c :: w' =>
      match t with
      | [] => false
      | d :: t' => Ascii.eqb c d && starts_with w' t'
      end
  end.

(** [w in t] on strings: [w] stands somewhere in [t]. *)
Fixpoint contains (w t : text) : bool :=
  starts_with w t ||
  match t with
  | [] => false
  | _ :: t' => contains w t'
  end.

(** [[w for w in keywords if w in text]] *)
Definition found (keywords : list string) (t : text) : list string :=
  filter (fun w => contains (chars w) t) keywords.

Definition nonempty (l : list string) : bool :=
  match l with [] => false | _ => true end.

Definition analyze_owner_note (note : string) : result :=
  let t := lower (chars note) in
  let found_symptoms := found symptom_keywords t in
  let found_context := found context_keywords t in
  let found_severity := found severity_keywords t in
  let score := 0.0 in
  let score := if nonempty found_symptoms then score + 0.4 else score in
  let score := if nonempty found_context then score + 0.3 else score in
  let score := if nonempty found_severity then score + 0.3 else score in
  let score := Py.min2 score 1.0 in
  let risk_label :=
    if Py.Qleb 0.7 score then "High"
    else if Py.Qleb 0.4 score then "Medium"
    else "Low" in
  {| note := note;
     found_symptoms := found_symptoms;
     found_context := found_context;
     found_severity := found_severity;
     text_risk_score := Py.round score 2;
     text_risk_label := risk_label%string |}.

(** The result as [save_result] writes it with [json.dump]. *)
Definition to_json (r : result) : Json.dict :=
  [ ("note", Json.Str (note r));
    ("found_symptoms", Json.Strs (found_symptoms r));
    ("found_context", Json.Strs (found_context r));
    ("found_severity", Json.Strs (found_severity r));
    ("text_risk_score", Json.Num (text_risk_score r));
    ("text_risk_label", Json.Str (text_risk_label r)) ]%string.

End Note.

(** ** fusion_test.py: the fusion of [main], lines 27-90 *)

Module FusionScript.

Local Open Scope string_scope.

(** What [load_latest_json] returns: [(None, None)], [(latest, None)] when
    the file could not be read, or [(latest, data)]. *)
Definition loaded := (option string * option Json.dict)%type.

(** [file and data]: a non-empty path and a non-empty dictionary. *)
Definition usable (l : loaded) : option Json.dict :=
  match l with
  | (Some file, Some data) =>
      if negb (String.eqb file "") && negb (Nat.eqb (List.length data) 0)
      then Some data else None
  | _ => None
  end.

(** Lines 28-36. *)
Definition audio_score (audio : loaded) : option Json.value :=
  match usable audio with
  | Some audio_data => Json.get audio_data "risk_score"
  | None => None
  end.

(** Lines 39-47: [text_data.get("text_risk_score", text_data.get("risk_score", None))]. *)
Definition text_score (text : loaded) : option Json.value :=
  match usable text with
  | Some text_data =>
      match Json.get text_data "text_risk_score" with
      | Some v => Some v
      | None => Json.get text_data "risk_score"
      end
  | None => None
  end.

(** Line 50: the scores that are numbers. *)
Definition numbers (l : list (option Json.value)) : list Q :=
  flat_map (fun s => match Json.number s with Some q => [q] | None => [] end) l.

(** Lines 51-54. *)
Definition fused_score (scores : list Q) : option Q :=
  match scores with
  | [] => None
  | _ => Some (Py.sum scores / inject_Z (Z.of_nat (List.length scores)))
  end.

(** [label], lines 57-64. *)
Definition label (score : option Q) : string :=
  match score with
  | None => "Unknown"
  | Some s =>
      if Py.Qleb 0.75 s then "High"
      else if Py.Qleb 0.4 s then "Medium"
      else "Low"
  end.

(** The scores and the label of the summary written to
    [fusion_summary_<timestamp>.json] (the file names and the time stamp are
    left out). *)
Record summary := {
  audio_risk_score : option Json.value;
  text_risk_score : option Json.value;
  fused_risk_score : option Q;
  fused_risk_label : string
}.

Definition main (audio text : loaded) : summary :=
  let audio_score := audio_score audio in
  let text_score := text_score text in
  let scores := numbers [audio_score; text_score] in
  let fused_score := fused_score scores in
  {| audio_risk_score := audio_score;
     text_risk_score := text_score;
     fused_risk_score := fused_score;
     fused_risk_label := label fused_score |}.

End FusionScript.

(** ** streamlit_app.py: the analysis behind the button, lines 85-140 *)

Module App.

Local Open Scope string_scope.

(** The dictionaries the four functions return, as [run_fusion] and the
    breakdown read them. *)
Definition audio_out_of (r : Audio.result) : Fusion.audio_dict :=
  {| Fusion.cough_score := Some (Audio.cough_score r) |}.

Definition vision_out_of (r : Vision.result) : Fusion.vision_dict :=
  {| Fusion.dog_detected := Some (Vision.dog_detected r);
     Fusion.dog_conf := Some (Vision.dog_conf r) |}.

Definition text_out_of (r : Text.result) : Fusion.text_dict :=
  {| Fusion.severity_score := Some (Text.severity_score r);
     Fusion.keywords := Some (Text.keywords r) |}.

(** Lines 89-94: no image. *)
Definition no_image : Fusion.vision_dict :=
  {| Fusion.dog_detected := Some false; Fusion.dog_conf := Some 0.0 |}.

(** An uploaded image, as far as [run_vision] sees it: the detector output
    and the shape. *)
Definition image := (list Vision.detection * positive * positive)%type.

(** Lines 122-130. *)
Record breakdown := {
  audio_pct : Q;
  vision_pct : Q;
  text_pct : Q
}.

Definition contributions (audio_out : Fusion.audio_dict)
                         (vision_out : Fusion.vision_dict)
                         (text_out : Fusion.text_dict) : breakdown :=
  let audio_score := Py.get (Fusion.cough_score audio_out) 0.0 in
  let vision_score := Py.get (Fusion.dog_conf vision_out) 0.0 in
  let text_score := Py.get (Fusion.severity_score text_out) 0.0 in
  let total := audio_score + vision_score + text_score + (1 # 1000000000) in
  {| audio_pct := audio_score / total;
     vision_pct := vision_score / total;
     text_pct := text_score / total |}.

Record report := {
  fusion_out : Fusion.result;
  shown_score : Q;
  shares : breakdown
}.

(** What the button computes from the loaded audio ([len_y], [sr], [rms], as
    for [run_audio]), the optional image and the note.  [None]: [run_audio]
    raised. *)
Definition assess (len_y : N) (sr : positive) (rms : list Q)
                  (image_file : option image) (owner_note : string)
  : option report :=
  match Audio.run_audio len_y sr rms with
  | None => None
  | Some audio_res =>
      let audio_out := audio_out_of audio_res in
      let vision_out :=
        match image_file with
        | Some (boxes, h, w) => vision_out_of (Vision.run_vision boxes h w)
        | None => no_image
        end in
      let text_out := text_out_of (Text.run_text owner_note) in
      let fusion_out := Fusion.run_fusion audio_out vision_out text_out in
      Some {| fusion_out := fusion_out;
              shown_score := Py.round (Fusion.risk_score fusion_out) 3;
              shares := contributions audio_out vision_out text_out |}
  end.

End App.

(* ------------------------------------------------------------------ *)
(** ** Vocabulary of the statements of Part III                          *)
(* ------------------------------------------------------------------ *)

Module Spec.

Local Open Scope string_scope.

(** The line [run_fusion] writes when no other line applies (line 130). *)
Definition no_signal_line : string := "No strong signals found from inputs.".

(** A detection that [run_vision] does more with than list it: a "dog" or a
    "car" (lines 80-83). *)
Definition counted (d : Vision.detection) : bool :=
  String.eqb (Vision.det_label d) "dog" || String.eqb (Vision.det_label d) "car".

(** The entry of [detected] for one box (lines 76-79). *)
Definition entry (img_area : positive) (d : Vision.detection) : string * Q * Q :=
  (Vision.det_label d,
   Py.round (Vision.det_conf d) 3,
   Py.round (Vision.area_ratio img_area d) 3).

(** Inputs: a cat, a car, and a confident dog of a tenth of a 100 x 100
    image. *)
Definition a_cat : Vision.detection :=
  {| Vision.det_label := "cat"; Vision.det_conf := 0.95;
     Vision.det_box := (0, 0, 80, 80) |}.
Definition a_car : Vision.detection :=
  {| Vision.det_label := "car"; Vision.det_conf := 0.7;
     Vision.det_box := (0, 0, 60, 40) |}.
Definition a_dog : Vision.detection :=
  {| Vision.det_label := "dog"; Vision.det_conf := 0.8;
     Vision.det_box := (10, 10, 50, 35) |}.
Definition clear_dog : Vision.detection :=
  {| Vision.det_label := "dog"; Vision.det_conf := 0.9;
     Vision.det_box := (10, 10, 50, 35) |}.

(** The elements of [l] stand in [names] in the same order, each once. *)
Fixpoint subseq (l names : list string) : bool :=
  match l, names with
  | [], _ => true
  | _ :: _, [] => false
  | x :: l', n :: names' =>
      if String.eqb x n then subseq l' names' else subseq l names'
  end.

(** The concept names in the order of the [concepts] dictionary (lines
    136-143) and the modifier names in the order of the four [if]
    statements (lines 166-186), with what each modifier adds. *)
Definition concept_names : list string := map fst Text.concepts.

Definition modifier_names : list string :=
  map (fun rule => snd (fst rule)) Text.modifier_rules.

Definition modifier_weight (name : string) : Q :=
  Py.sum (map snd (filter (fun rule => String.eqb name (snd (fst rule)))
                          Text.modifier_rules)).


(** Inputs of the page: the one-burst clip of [Audio.one_burst], and an
    image with a dog that a car vetoes. *)
Definition vetoed_image : App.image := ([a_dog; a_car], 100%positive, 100%positive).


End Spec.

(* ================================================================== *)
(** * Part II: properties                                              *)
(* ================================================================== *)

(** ** Comparisons and rounding *)

Arguments Py.round : simpl never.
Arguments Py.round_half_even : simpl never.
Arguments Py.Qltb : simpl never.
Arguments Py.Qleb : simpl never.
Arguments Py.max2 : simpl never.
Arguments Py.min2 : simpl never.

Lemma Qltb_lt (x y : Q) : Py.Qltb x y = true <-> x < y.
Proof.
  unfold Py.Qltb. rewrite negb_true_iff, <- not_true_iff_false, Qle_bool_iff.
  split; [apply Qnot_le_lt | apply Qlt_not_le].
Qed.

Lemma Qltb_ge (x y : Q) : Py.Qltb x y = false <-> y <= x.
Proof.
  unfold Py.Qltb. rewrite negb_false_iff. apply Qle_bool_iff.
Qed.

Lemma Qleb_le (x y : Q) : Py.Qleb x y = true <-> x <= y.
Proof. apply Qle_bool_iff. Qed.

Lemma Qleb_gt (x y : Q) : Py.Qleb x y = false <-> y < x.
Proof.
  unfold Py.Qleb. rewrite <- not_true_iff_false, Qle_bool_iff.
  split; [apply Qnot_le_lt | apply Qlt_not_le].
Qed.

(** Case analysis on the comparisons of the source. *)
Ltac by_cases_on_comparisons :=
  repeat match goal with
         | |- context [Py.Qltb ?x ?y] =>
             let E := fresh "E" in
             destruct (Py.Qltb x y) eqn:E;
             [apply Qltb_lt in E | apply Qltb_ge in E]
         | |- context [Py.Qleb ?x ?y] =>
             let E := fresh "E" in
             destruct (Py.Qleb x y) eqn:E;
             [apply Qleb_le in E | apply Qleb_gt in E]
         end.

Lemma max2_ge_l (a b : Q) : a <= Py.max2 a b.
Proof. unfold Py.max2. by_cases_on_comparisons; lra. Qed.

Lemma max2_ge_r (a b : Q) : b <= Py.max2 a b.
Proof. unfold Py.max2. by_cases_on_comparisons; lra. Qed.

Lemma max2_cases (a b : Q) : Py.max2 a b = a \/ Py.max2 a b = b.
Proof. unfold Py.max2. destruct (Py.Qltb a b); auto. Qed.

Lemma min2_le_l (a b : Q) : Py.min2 a b <= a.
Proof. unfold Py.min2. by_cases_on_comparisons; lra. Qed.

Lemma min2_eq_Qmin (a b : Q) : Py.min2 a b == Qmin a b.
Proof.
  unfold Py.min2. by_cases_on_comparisons.
  - symmetry. apply Q.min_r. lra.
  - symmetry. apply Q.min_l. lra.
Qed.

(** Turns the results of [Qcompare] in the context into order facts. *)
Ltac compare_facts :=
  repeat match goal with
         | H : Qcompare _ _ = Eq |- _ => apply Qeq_alt in H
         | H : Qcompare _ _ = Lt |- _ => apply Qlt_alt in H
         | H : Qcompare _ _ = Gt |- _ => apply Qgt_alt in H
         end.

Lemma round_half_even_cases (q : Q) :
  Py.round_half_even q = Qfloor q \/ Py.round_half_even q = (Qfloor q + 1)%Z.
Proof.
  unfold Py.round_half_even.
  destruct (Qcompare _ _); auto. destruct (Z.even _); auto.
Qed.

Lemma round_half_even_mono (x y : Q) :
  x <= y -> (Py.round_half_even x <= Py.round_half_even y)%Z.
Proof.
  intros Hxy.
  pose proof (Qfloor_resp_le _ _ Hxy) as Hf.
  destruct (Z.eq_dec (Qfloor x) (Qfloor y)) as [Heq | Hne].
  - unfold Py.round_half_even. rewrite <- Heq.
    destruct (Qcompare (x - inject_Z (Qfloor x)) (1 # 2)) eqn:Cx;
      destruct (Qcompare (y - inject_Z (Qfloor x)) (1 # 2)) eqn:Cy;
      try (destruct (Z.even (Qfloor x))); try lia;
      compare_facts; exfalso; lra.
  - destruct (round_half_even_cases x) as [-> | ->];
      destruct (round_half_even_cases y) as [-> | ->]; lia.
Qed.

Lemma round_half_even_at (q : Q) (z : Z) :
  inject_Z z <= q -> q < inject_Z z + (1 # 2) -> Py.round_half_even q = z.
Proof.
  intros Hlo Hhi.
  assert (Hf : Qfloor q = z).
  { pose proof (Qfloor_le q) as H1. pose proof (Qlt_floor q) as H2.
    rewrite inject_Z_plus in H2. change (inject_Z 1) with 1 in H2.
    assert (Hz1 : inject_Z z < inject_Z (Qfloor q + 1)).
    { rewrite inject_Z_plus. change (inject_Z 1) with 1. lra. }
    assert (Hz2 : inject_Z (Qfloor q) < inject_Z (z + 1)).
    { rewrite inject_Z_plus. change (inject_Z 1) with 1. lra. }
    rewrite <- Zlt_Qlt in Hz1, Hz2. lia. }
  unfold Py.round_half_even. rewrite Hf.
  assert (Hc : Qcompare (q - inject_Z z) (1 # 2) = Lt) by (apply (proj1 (Qlt_alt _ _)); lra).
  now rewrite Hc.
Qed.

Lemma pow10_pos (n : nat) : 0 < inject_Z (Py.pow10 n).
Proof.
  unfold Py.pow10. change 0 with (inject_Z 0). rewrite <- Zlt_Qlt.
  apply Z.pow_pos_nonneg; lia.
Qed.

Lemma round_mono (n : nat) (x y : Q) : x <= y -> Py.round x n <= Py.round y n.
Proof.
  intros Hxy. unfold Py.round. rewrite Qred_le.
  pose proof (pow10_pos n) as Hp.
  apply Qmult_le_compat_r.
  - rewrite <- Zle_Qle. apply round_half_even_mono.
    apply Qmult_le_compat_r; lra.
  - apply Qlt_le_weak, Qinv_lt_0_compat, Hp.
Qed.

Lemma round_comp (n : nat) (x y : Q) : x == y -> Py.round x n = Py.round y n.
Proof.
  intros Hxy. unfold Py.round. apply Qred_complete.
  assert (H : Py.round_half_even (x * inject_Z (Py.pow10 n)) =
              Py.round_half_even (y * inject_Z (Py.pow10 n))).
  { apply Z.le_antisymm; apply round_half_even_mono; rewrite Hxy; lra. }
  now rewrite H.
Qed.

(** ** fusion_test.py: [run_fusion] *)

Section FusionFacts.

Import Fusion.

Variables (a v t : Q) (d : bool) (kw : list string).

(** The weighted sum as the specification writes it. *)
Let risk : Q := 0.6 * a + 0.2 * (if d then v else 0) + 0.2 * t.

Let out : result := run_fusion (audio_of a) (vision_of d v) (text_of t kw).

Lemma run_fusion_unfold :
  risk_score out = Py.round risk 3 /\ risk_level out = level_of risk.
Proof.
  unfold out, risk, run_fusion, audio_of, vision_of, text_of; cbn.
  split.
  - apply round_comp. unfold weighted_sum. destruct d; lra.
  - unfold level_of, weighted_sum.
    destruct d; by_cases_on_comparisons; try reflexivity; exfalso; lra.
Qed.

Lemma level_of_High (r : Q) : level_of r = High <-> 0.5 < r.
Proof.
  unfold level_of. by_cases_on_comparisons; split; intros H;
    try reflexivity; try discriminate; try assumption; exfalso; lra.
Qed.

Lemma level_of_Medium (r : Q) : level_of r = Medium <-> 0.2 <= r /\ r <= 0.5.
Proof.
  unfold level_of. by_cases_on_comparisons; split; intros H;
    try reflexivity; try discriminate; try (split; assumption);
    exfalso; lra.
Qed.



(** C10.  The label comes from the exact weighted sum, the returned score is
    that sum rounded to three decimals.  Hence whenever the exact sum lies
    strictly between 0.5 and 0.5005 the returned record carries the score 0.5
    together with the label High, although the label rule applied to the
    returned score gives Medium. *)
Theorem run_fusion_label_before_rounding :
  0.5 < risk -> risk < 0.5005 ->
  risk_level out = level_of risk /\
  risk_score out = Py.round risk 3 /\
  risk_score out == 0.5 /\
  risk_level out = High /\
  level_of (risk_score out) = Medium.
Proof.
  intros Hlo Hhi. destruct run_fusion_unfold as [Hs Hl].
  assert (Hr : Py.round risk 3 == 0.5).
  { unfold Py.round. rewrite Qred_correct.
    rewrite (round_half_even_at _ 500).
    - reflexivity.
    - change (inject_Z (Py.pow10 3)) with 1000. change (inject_Z 500) with 500. lra.
    - change (inject_Z (Py.pow10 3)) with 1000. change (inject_Z 500) with 500. lra. }
  repeat split; try assumption.
  - rewrite Hs. exact Hr.
  - rewrite Hl. apply level_of_High. exact Hlo.
  - rewrite Hs. apply level_of_Medium. rewrite Hr. split; lra.
Qed.

End FusionFacts.

(** The three boundary risks of C1 are reached by actual inputs. *)
Example run_fusion_boundaries :
  let level a := Fusion.risk_level
    (Fusion.run_fusion (Fusion.audio_of a) (Fusion.vision_of true a) (Fusion.text_of a [])) in
  level 0.5 = Fusion.Medium /\ level 0.2 = Fusion.Medium /\ level 0.19999 = Fusion.Low /\
  level 0.50001 = Fusion.High.
Proof. vm_compute. repeat split. Qed.

(** An input in the window of C10: audio score 0.834 alone, exact sum
    0.5004. *)
Lemma run_fusion_label_before_rounding_witness :
  let risk := 0.6 * 0.834 + 0.2 * 0 + 0.2 * 0 in
  let out := Fusion.run_fusion (Fusion.audio_of 0.834) (Fusion.vision_of false 0)
                               (Fusion.text_of 0 []) in
  (0.5 < risk /\ risk < 0.5005) /\
  Fusion.risk_level out = Fusion.level_of risk /\
  Fusion.risk_score out = Py.round risk 3 /\
  Fusion.risk_score out == 0.5 /\
  Fusion.risk_level out = Fusion.High /\
  Fusion.level_of (Fusion.risk_score out) = Fusion.Medium.
Proof.
  assert (Hlo : 0.5 < 0.6 * 0.834 + 0.2 * 0 + 0.2 * 0) by reflexivity.
  assert (Hhi : 0.6 * 0.834 + 0.2 * 0 + 0.2 * 0 < 0.5005) by reflexivity.
  exact (conj (conj Hlo Hhi)
           (run_fusion_label_before_rounding 0.834 0 0 false [] Hlo Hhi)).
Defined.

Section FusionMonotone.

Import Fusion.

Variables (a v t lo hi : Q) (kw : list string).

Let sum_of (a v t : Q) : Q := weighted_sum a v t.

Let score_of (a v t : Q) : Q :=
  risk_score (run_fusion (audio_of a) (vision_of true v) (text_of t kw)).

(** C9.  The fused risk, both as the exact weighted sum and as the returned
    rounded score, does not decrease when one of the audio score, the vision
    confidence (dog detected) and the text severity grows from [lo] to [hi]
    and the other two stay fixed. *)
Theorem run_fusion_monotone :
  lo <= hi ->
  (sum_of lo v t <= sum_of hi v t /\ score_of lo v t <= score_of hi v t) /\
  (sum_of a lo t <= sum_of a hi t /\ score_of a lo t <= score_of a hi t) /\
  (sum_of a v lo <= sum_of a v hi /\ score_of a v lo <= score_of a v hi).
Proof.
  intros H. unfold sum_of, score_of, run_fusion, audio_of, vision_of, text_of; cbn.
  unfold weighted_sum.
  repeat split; try lra; apply round_mono; lra.
Qed.

End FusionMonotone.

Lemma run_fusion_monotone_witness :
  let s a v t := Fusion.weighted_sum a v t in
  let r a v t := Fusion.risk_score
    (Fusion.run_fusion (Fusion.audio_of a) (Fusion.vision_of true v) (Fusion.text_of t [])) in
  0.2 <= 0.7 /\
  (s 0.2 0.9 0.3 <= s 0.7 0.9 0.3 /\ r 0.2 0.9 0.3 <= r 0.7 0.9 0.3) /\
  (s 0.5 0.2 0.3 <= s 0.5 0.7 0.3 /\ r 0.5 0.2 0.3 <= r 0.5 0.7 0.3) /\
  (s 0.5 0.9 0.2 <= s 0.5 0.9 0.7 /\ r 0.5 0.9 0.2 <= r 0.5 0.9 0.7).
Proof.
  assert (H : 0.2 <= 0.7) by discriminate.
  exact (conj H (run_fusion_monotone 0.5 0.9 0.3 0.2 0.7 [] H)).
Defined.

(** ** vision_test.py: [run_vision] *)

Lemma max_from_spec (l : list Q) (m : Q) :
  In (Py.max_from m l) (m :: l) /\ forall x, In x (m :: l) -> x <= Py.max_from m l.
Proof.
  revert m. induction l as [| y l IH]; intros m; simpl.
  - split; [now left |]. intros x [<- | []]. lra.
  - destruct (IH (Py.max2 m y)) as [Hin Hge]. split.
    + destruct Hin as [Hin | Hin]; [| now right; right].
      rewrite <- Hin. destruct (max2_cases m y) as [-> | ->]; auto.
    + intros x [<- | [<- | Hx]].
      * apply Qle_trans with (Py.max2 m y); [apply max2_ge_l | apply Hge; now left].
      * apply Qle_trans with (Py.max2 m y); [apply max2_ge_r | apply Hge; now left].
      * apply Hge. now right.
Qed.

Lemma max_default_greatest (l : list Q) (d d' : Q) :
  d == d' -> Vision.greatest_or l d' (Py.max_default l d).
Proof.
  intros Hd. destruct l as [| x l]; [left; split; [reflexivity | exact Hd] |].
  right. destruct (max_from_spec l x) as [Hin Hge]. split; [| exact Hge].
  exists (Py.max_from x l). split; [exact Hin | reflexivity].
Qed.

Lemma greatest_or_unique (l : list Q) (d m m' : Q) :
  Vision.greatest_or l d m -> Vision.greatest_or l d m' -> m == m'.
Proof.
  intros [[-> ->] | [[y [Hin Ey]] Hge]] [[E ->] | [[y' [Hin' Ey']] Hge']];
    try reflexivity.
  - destruct Hin'.
  - subst l. destruct Hin.
  - apply Qle_antisym; [rewrite <- Ey | rewrite <- Ey']; auto.
Qed.

Section VisionFacts.

Import Vision.

Variables (h w : positive).

Let img_area : positive := (w * h)%positive.

(** What the loop has collected after the boxes [bs]. *)
Lemma loop_collects (bs : list detection) (st : loop_state) :
  let st' := fold_left (loop_body img_area) bs st in
  st_dog_candidates st' =
    st_dog_candidates st ++
    map (fun d => (det_conf d, area_ratio img_area d)) (dogs bs) /\
  st_car_conf st' = Py.max_from (st_car_conf st) (map det_conf (cars bs)).
Proof.
  revert st. induction bs as [| b bs IH]; intros st; simpl.
  - now rewrite app_nil_r.
  - destruct (IH (loop_body img_area st b)) as [Hd Hc].
    unfold dogs, cars in *. simpl. rewrite Hd, Hc. unfold loop_body; simpl.
    destruct (String.eqb (det_label b) "dog"), (String.eqb (det_label b) "car");
      simpl; rewrite <- ?app_assoc; auto.
Qed.

Lemma decide_rule (c r k : Q) : decide c r k = true <-> rule c r k.
Proof.
  unfold decide, rule, DOG_STRONG, DOG_GREY, CAR_VETO, MIN_AREA_RATIO.
  by_cases_on_comparisons; simpl; split;
    try discriminate; try reflexivity; intros H;
    try (exfalso; lra);
    try (split; [ first [left; split; assumption | right; split; assumption]
                | intros [? ?]; lra ]);
    try (destruct H as [[[? ?] | [? ?]] ?]; exfalso; lra);
    try (destruct H as [? Hn]; exfalso; apply Hn; split; lra).
Qed.

Lemma rule_comp (c c' r r' k k' : Q) :
  c == c' -> r == r' -> k == k' -> rule c r k -> rule c' r' k'.
Proof.
  unfold rule. intros Hc Hr Hk [H Hn]. split.
  - destruct H as [[? ?] | [? ?]]; [left | right]; split; lra.
  - intros [? ?]. apply Hn. split; lra.
Qed.


End VisionFacts.



(** ** audio_test.py: [run_audio] on a silent envelope *)

Lemma all_zero_add_coeffs (p q : list Q) :
  Audio.all_zero p -> Audio.all_zero q -> Audio.all_zero (Audio.add_coeffs p q).
Proof.
  intros Hp. revert q. induction Hp as [| x p Hx Hp IH]; intros q Hq; simpl.
  - exact Hq.
  - destruct Hq as [| y q Hy Hq]; constructor; auto.
    + rewrite Hx, Hy. reflexivity.
    + apply IH, Hq.
Qed.

Lemma all_zero_scale (x : Q) (v : list Q) : x == 0 -> Audio.all_zero (map (Qmult x) v).
Proof.
  intros Hx. induction v as [| y v IH]; simpl; constructor; auto.
  rewrite Hx. ring.
Qed.

Lemma all_zero_convolve_full (a v : list Q) :
  Audio.all_zero a -> Audio.all_zero (Audio.convolve_full a v).
Proof.
  induction 1 as [| x a Hx Ha IH]; simpl.
  - constructor.
  - apply all_zero_add_coeffs; [now apply all_zero_scale |].
    constructor; [reflexivity | exact IH].
Qed.

Lemma all_zero_firstn (n : nat) (l : list Q) : Audio.all_zero l -> Audio.all_zero (firstn n l).
Proof.
  intros H. revert n.
  induction H as [| x l Hx Hl IH]; intros [| n]; simpl; try constructor; auto.
  apply IH.
Qed.

Lemma all_zero_skipn (n : nat) (l : list Q) : Audio.all_zero l -> Audio.all_zero (skipn n l).
Proof.
  intros H. revert n.
  induction H as [| x l Hx Hl IH]; intros [| n]; simpl; try constructor; auto.
Qed.

Lemma all_zero_nth (l : list Q) (i : nat) : Audio.all_zero l -> nth i l 0 == 0.
Proof.
  intros H. revert i. induction H; intros [| i]; simpl; auto; reflexivity.
Qed.

Lemma Some_inj {A : Type} (x y : A) : Some x = Some y -> x = y.
Proof. congruence. Qed.

Lemma convolve_same_some (a v : list Q) :
  a <> [] -> v <> [] -> exists s, Audio.np_convolve_same a v = Some s.
Proof.
  intros Ha Hv. unfold Audio.np_convolve_same.
  destruct a; [contradiction |]. destruct v; [contradiction |].
  eexists. reflexivity.
Qed.

Lemma convolve_same_all_zero (a v s : list Q) :
  Audio.all_zero a -> Audio.np_convolve_same a v = Some s -> Audio.all_zero s.
Proof.
  unfold Audio.np_convolve_same. intros Hz.
  destruct a; [discriminate |]. destruct v; [discriminate |].
  intros H. apply Some_inj in H. rewrite <- H.
  apply all_zero_firstn, all_zero_skipn, all_zero_convolve_full, Hz.
Qed.

Lemma smooth_some (rms : list Q) :
  rms <> [] -> exists s, Audio.smooth rms = Some s.
Proof.
  intros Hne. apply convolve_same_some; [exact Hne | discriminate].
Qed.

Lemma smooth_all_zero (rms s : list Q) :
  Audio.all_zero rms -> Audio.smooth rms = Some s -> Audio.all_zero s.
Proof.
  intros Hz. apply convolve_same_all_zero, Hz.
Qed.

Lemma all_zero_insert (x : Q) (l : list Q) :
  x == 0 -> Audio.all_zero l -> Audio.all_zero (Audio.insert_sorted x l).
Proof.
  intros Hx Hl. induction Hl as [| y l Hy Hl IH]; simpl.
  - repeat constructor. exact Hx.
  - destruct (Qle_bool x y); repeat constructor; auto.
Qed.

Lemma all_zero_sort (l : list Q) : Audio.all_zero l -> Audio.all_zero (Audio.sort l).
Proof.
  induction 1; simpl; [constructor | now apply all_zero_insert].
Qed.

Lemma np_median_zero (l : list Q) : Audio.all_zero l -> Audio.np_median l == 0.
Proof.
  intros H. apply all_zero_sort in H. unfold Audio.np_median.
  destruct (Nat.even _).
  - rewrite !(all_zero_nth _ _ H). reflexivity.
  - apply all_zero_nth, H.
Qed.

Lemma is_peak_silent (s : list Q) (thr : Q) (i : nat) :
  Audio.all_zero s -> 0 < thr -> Audio.is_peak s thr i = false.
Proof.
  intros Hs Hthr. unfold Audio.is_peak.
  assert (E : Py.Qltb thr (nth i s 0) = false).
  { apply Qltb_ge. rewrite (all_zero_nth _ i Hs). lra. }
  now rewrite E.
Qed.

Lemma detect_peaks_silent (s : list Q) (dist : Z) (thr : Q) :
  Audio.all_zero s -> 0 < thr -> Audio.detect_peaks s dist thr = [].
Proof.
  intros Hs Hthr. unfold Audio.detect_peaks.
  induction (Audio.inner_indices s) as [| i l IH]; simpl; [reflexivity |].
  unfold Audio.peak_step at 2. now rewrite is_peak_silent.
Qed.

Lemma all_zero_deviations (s : list Q) (m : Q) :
  Audio.all_zero s -> m == 0 -> Audio.all_zero (map (fun x => Qabs (x - m)) s).
Proof.
  intros Hs Hm. induction Hs as [| x s Hx Hs IH]; cbn [map]; constructor; auto.
  rewrite Hx, Hm. reflexivity.
Qed.

Lemma find_peaks_silent (s : list Q) (sr : positive) :
  Audio.all_zero s -> Audio.find_peaks s sr = [].
Proof.
  intros Hs. unfold Audio.find_peaks.
  pose proof (np_median_zero s Hs) as Hmed.
  pose proof (np_median_zero _ (all_zero_deviations s _ Hs Hmed)) as Hmad.
  cbn [Audio.try_thresholds].
  rewrite !detect_peaks_silent; try assumption; try reflexivity;
    rewrite Hmed, Hmad; reflexivity.
Qed.

Lemma score_no_events (d : Q) : Audio.score 0 d == 0.
Proof.
  unfold Audio.score. change (0 <? 4)%nat with true. cbv iota.
  change (inject_Z (Z.of_nat 0)) with 0.
  assert (E1 : forall x, 0 / x == 0) by (intros x; unfold Qdiv; ring).
  assert (Hmin : forall x, x == 0 -> Py.min2 1.0 x == 0).
  { intros x Hx. unfold Py.min2. by_cases_on_comparisons; lra. }
  assert (R : Py.min2 1.0 (0 / Py.max2 (1 # 1000000000) (d / 10.0) / 6.0) == 0)
    by (apply Hmin; rewrite E1; apply E1).
  assert (C : Py.min2 1.0 (0 / 25.0) == 0) by apply Hmin, E1.
  rewrite Hmin; [reflexivity |]. rewrite R, C. reflexivity.
Qed.

(** C8.  For a silent clip (every frame of the RMS envelope is zero, and
    there is at least one frame, which is what a non-empty waveform of
    all-zero samples gives) [run_audio] returns zero events, no timestamps
    and the score 0. *)
Theorem run_audio_silent (len_y : N) (sr : positive) (rms : list Q) :
  rms <> [] -> Audio.all_zero rms ->
  Audio.run_audio len_y sr rms =
    Some {| Audio.cough_score := 0; Audio.events := 0; Audio.timestamps := [] |}.
Proof.
  intros Hne Hz. unfold Audio.run_audio.
  destruct (smooth_some rms Hne) as [s Hs]. rewrite Hs.
  rewrite (find_peaks_silent s sr (smooth_all_zero _ _ Hz Hs)). simpl.
  rewrite (round_comp 3 _ 0) by apply score_no_events.
  reflexivity.
Qed.

Lemma run_audio_silent_witness :
  (repeat 0 22 <> [] /\ Audio.all_zero (repeat 0 22)) /\
  Audio.run_audio 22050 22050 (repeat 0 22) =
    Some {| Audio.cough_score := 0; Audio.events := 0; Audio.timestamps := [] |}.
Proof.
  assert (Hne : repeat 0 22 <> []) by discriminate.
  assert (Hz : Audio.all_zero (repeat 0 22)) by (repeat constructor).
  exact (conj (conj Hne Hz) (run_audio_silent 22050 22050 (repeat 0 22) Hne Hz)).
Defined.

(** ** audio_test.py: the score of [run_audio] *)

#[local] Instance min2_compat : Proper (Qeq ==> Qeq ==> Qeq) Py.min2.
Proof.
  intros x x' Hx y y' Hy. rewrite !min2_eq_Qmin. now rewrite Hx, Hy.
Qed.

Lemma count_nonneg (n : nat) : 0 <= inject_Z (Z.of_nat n).
Proof. change 0 with (inject_Z 0). rewrite <- Zle_Qle. lia. Qed.








(** C3 at 22050 Hz: the minimum distance is [int(0.5 * 22050 / 1024)], that
    is 10 frames or about 0.464 s.  The two bursts of [two_bursts] peak 10
    frames apart; both are reported, 0.46 s apart. *)
Lemma run_audio_events_closer_than_half_second :
  Audio.min_distance_frames 22050 = 10%Z /\
  Audio.run_audio 60416 22050 Audio.two_bursts =
    Some {| Audio.cough_score := 27 # 125; Audio.events := 2;
            Audio.timestamps := [0.33; 0.79] |} /\
  0.79 - 0.33 < 0.5 /\
  ~ Audio.spaced 0.5 [0.33; 0.79].
Proof.
  split; [reflexivity |]. split; [vm_compute; reflexivity |].
  split; [reflexivity |].
  intros [H _]. vm_compute in H. apply H. reflexivity.
Qed.

(** ** text_prototype.py: what the patterns match *)

Section RegexFacts.

Import Text TextSpec.







End RegexFacts.

Section PatternFacts.

Import Text TextSpec.






End PatternFacts.

(** ** text_prototype.py: [run_text] *)

Section TextFacts.

Import Text TextSpec.







(** C7.  For the text "My dog has a hacking cough after daycare and is very
    tired" [run_text] returns keywords that include cough, daycare and
    lethargy, detects the dry/hacking modifier, and returns the severity
    0.65, which is 0.25 (cough) + 0.10 (daycare) + 0.20 (lethargy) + 0.10
    (modifier). *)
Theorem run_text_hacking_cough :
  let r := run_text "My dog has a hacking cough after daycare and is very tired" in
  In "cough"%string (keywords r) /\
  In "daycare"%string (keywords r) /\
  In "lethargy"%string (keywords r) /\
  modifiers_detected r = ["dry/hacking"%string] /\
  severity_score r == 0.65 /\
  weights_get weights "cough" 0.10 = 0.25 /\
  weights_get weights "daycare" 0.10 = 0.10 /\
  weights_get weights "lethargy" 0.10 = 0.20 /\
  severity_score r == 0.25 + 0.10 + 0.20 + 0.10.
Proof.
  vm_compute. intuition congruence.
Qed.

End TextFacts.



(** ** audio_test.py: the spacing [detect_peaks] enforces *)

Section PeakSpacing.

Variables (s : list Q) (D : Z) (thr : Q).

Let collected : nat -> list nat -> Prop := Audio.collected s D thr.







End PeakSpacing.



(** *** From frames to seconds *)




Section Seconds.

Variable sr : positive.

Let D : Z := Audio.min_distance_frames sr.

Let rate : Q := inject_Z (Zpos sr).







End Seconds.


(** ** The ranges of the three scores *)

Lemma round_unit_interval (q : Q) : 0 <= q -> q <= 1 -> 0 <= Py.round q 3 <= 1.
Proof.
  intros H0 H1. split.
  - apply Qle_trans with (Py.round 0 3); [discriminate | apply round_mono, H0].
  - apply Qle_trans with (Py.round 1 3); [apply round_mono, H1 | discriminate].
Qed.

Lemma min2_unit (x : Q) : 0 <= x -> 0 <= Py.min2 1.0 x <= 1.
Proof.
  intros Hx. unfold Py.min2. by_cases_on_comparisons; split; lra.
Qed.

Lemma score_unit_interval (n : nat) (d : Q) : 0 <= Audio.score n d <= 1.
Proof.
  unfold Audio.score.
  pose proof (count_nonneg n) as Hn.
  set (nq := inject_Z (Z.of_nat n)) in *.
  assert (Hg : 0 < Py.max2 (1 # 1000000000) (d / 10.0)).
  { apply Qlt_le_trans with (1 # 1000000000); [reflexivity | apply max2_ge_l]. }
  assert (He : 0 <= nq / Py.max2 (1 # 1000000000) (d / 10.0) / 6.0).
  { apply Qle_shift_div_l; [reflexivity |]. rewrite Qmult_0_l.
    apply Qle_shift_div_l; [exact Hg |]. rewrite Qmult_0_l. exact Hn. }
  assert (Hc : 0 <= nq / 25.0).
  { apply Qle_shift_div_l; [reflexivity |]. rewrite Qmult_0_l. exact Hn. }
  pose proof (min2_unit _ He) as Hr. pose proof (min2_unit _ Hc) as Hk.
  set (rate := Py.min2 1.0 _) in *. set (count := Py.min2 1.0 (nq / 25.0)) in *.
  assert (Hs : 0 <= 0.5 * rate + 0.5 * count) by lra.
  pose proof (min2_unit _ Hs) as Hraw.
  destruct (n <? 4)%nat; lra.
Qed.

(** The audio score lies between 0 and 1. *)
Theorem run_audio_score_range (len_y : N) (sr : positive) (rms : list Q)
                              (r : Audio.result) :
  Audio.run_audio len_y sr rms = Some r ->
  0 <= Audio.cough_score r <= 1.
Proof.
  unfold Audio.run_audio. destruct (Audio.smooth rms) as [s |]; [| discriminate].
  intros H. apply Some_inj in H. subst r. cbn [Audio.cough_score].
  apply round_unit_interval; apply score_unit_interval.
Qed.

Lemma run_audio_score_range_witness :
  let r := {| Audio.cough_score := 27 # 125; Audio.events := 2;
              Audio.timestamps := [0.33; 0.79] |} in
  Audio.run_audio 60416 22050 Audio.two_bursts = Some r /\
  0 <= Audio.cough_score r <= 1.
Proof.
  assert (H : Audio.run_audio 60416 22050 Audio.two_bursts =
              Some {| Audio.cough_score := 27 # 125; Audio.events := 2;
                      Audio.timestamps := [0.33; 0.79] |})
    by (vm_compute; reflexivity).
  exact (conj H (run_audio_score_range 60416 22050 Audio.two_bursts _ H)).
Defined.

(** The fused score lies between 0 and 1 when the three inputs do. *)
Theorem run_fusion_score_range (a v t : Q) (d : bool) (kw : list string) :
  0 <= a <= 1 -> 0 <= v <= 1 -> 0 <= t <= 1 ->
  0 <= Fusion.risk_score
         (Fusion.run_fusion (Fusion.audio_of a) (Fusion.vision_of d v)
                            (Fusion.text_of t kw)) <= 1.
Proof.
  intros Ha Hv Ht. destruct (run_fusion_unfold a v t d kw) as [-> _].
  apply round_unit_interval; destruct d; lra.
Qed.

Lemma run_fusion_score_range_witness :
  (0 <= 0.834 <= 1 /\ 0 <= 0.9 <= 1 /\ 0 <= 0.65 <= 1) /\
  0 <= Fusion.risk_score
         (Fusion.run_fusion (Fusion.audio_of 0.834) (Fusion.vision_of true 0.9)
                            (Fusion.text_of 0.65 [])) <= 1.
Proof.
  assert (Ha : 0 <= 0.834 <= 1) by (split; discriminate).
  assert (Hv : 0 <= 0.9 <= 1) by (split; discriminate).
  assert (Ht : 0 <= 0.65 <= 1) by (split; discriminate).
  exact (conj (conj Ha (conj Hv Ht))
              (run_fusion_score_range 0.834 0.9 0.65 true [] Ha Hv Ht)).
Defined.

Section SeverityRange.

Import Text.

Lemma weights_get_nonneg (w : list (string * Q)) (k : string) (d : Q) :
  Forall (fun kw => 0 <= snd kw) w -> 0 <= d -> 0 <= weights_get w k d.
Proof.
  intros Hw Hd. induction Hw as [| [k' x] w Hx Hw IH]; simpl; [exact Hd |].
  destruct (String.eqb k k'); [exact Hx | exact IH].
Qed.

Lemma weights_nonneg : Forall (fun kw => 0 <= snd kw) weights.
Proof. unfold weights. repeat constructor; discriminate. Qed.

Lemma fold_plus_nonneg (l : list Q) (acc : Q) :
  Forall (fun x => 0 <= x) l -> 0 <= acc -> 0 <= fold_left Qplus l acc.
Proof.
  intros Hl. revert acc. induction Hl as [| x l Hx Hl IH]; intros acc Hacc; simpl.
  - exact Hacc.
  - apply IH. lra.
Qed.

Lemma intensity_nonneg (t : text) (rules : list (regex * string * Q))
                       (acc : list string * Q) :
  Forall (fun rule => 0 <= snd rule) rules -> 0 <= snd acc ->
  0 <= snd (fold_left (apply_modifier t) rules acc).
Proof.
  intros Hr. revert acc. induction Hr as [| [[r name] w] rules Hw Hr IH];
    intros acc Hacc; simpl; [exact Hacc |].
  apply IH. destruct (re_search r t); simpl in *; lra.
Qed.

Lemma modifier_weights_nonneg : Forall (fun rule => 0 <= snd rule) modifier_rules.
Proof. unfold modifier_rules. repeat constructor; discriminate. Qed.

(** The text severity lies between 0 and 1. *)
Theorem run_text_severity_range (owner_note : string) :
  0 <= severity_score (run_text owner_note) <= 1.
Proof.
  unfold run_text. destruct (lower (strip (chars owner_note))) as [| c t].
  - split; discriminate.
  - set (t' := c :: t).
    assert (H0 : 0 <= snd (@nil string, 0.0)) by discriminate.
    pose proof (intensity_nonneg t' modifier_rules ([], 0.0)
                  modifier_weights_nonneg H0) as Hi.
    destruct (fold_left (apply_modifier t') modifier_rules ([], 0.0))
      as [modifiers intensity].
    cbn [severity_score]. simpl snd in Hi.
    set (kws := dedup (detect t')).
    assert (Hs : 0 <= Py.sum (map (fun k => weights_get weights k 0.10) kws)).
    { unfold Py.sum. apply fold_plus_nonneg; [| apply Qle_refl].
      apply Forall_forall. intros x Hx. apply in_map_iff in Hx as (k & <- & _).
      apply weights_get_nonneg; [apply weights_nonneg | discriminate]. }
    split.
    + unfold Py.min2. by_cases_on_comparisons; [| discriminate].
      apply Qle_trans with (Py.round 0 3); [discriminate | apply round_mono; lra].
    + apply Qle_trans with 1.0; [apply min2_le_l | discriminate].
Qed.

End SeverityRange.

(** ** text_prototype.py: a note without keywords and modifiers *)

Section QuietNote.

Import Text TextSpec.





End QuietNote.


(* ================================================================== *)
(** * Part III: further properties of the code                         *)
(* ================================================================== *)

(** ** fusion_test.py: the explanation and the weight of the audio score *)

Section FusionExplanation.

Import Fusion Spec.

Variables (audio_out : audio_dict) (vision_out : vision_dict) (text_out : text_dict).

Let a : Q := Py.get (cough_score audio_out) 0.0.
Let seen : bool := Py.truthy (dog_detected vision_out).
Let v : Q := if seen then Py.get (dog_conf vision_out) 0.0 else 0.0.
Let t : Q := Py.get (severity_score text_out) 0.0.
Let out : result := run_fusion audio_out vision_out text_out.

Lemma run_fusion_level : risk_level out = level_of (weighted_sum a v t).
Proof. reflexivity. Qed.

Lemma text_line_not_fallback (s : string) :
  String.append "Text: symptoms mentioned (" s <> no_signal_line.
Proof. discriminate. Qed.

(** The explanation is never empty and has at most three lines.  It is the
    single line "No strong signals found from inputs." exactly when the audio
    score is below 0.6, no dog was detected and the text severity is not
    positive; that line never comes with the label High. *)
Theorem run_fusion_explanation :
  explanation out <> [] /\
  (List.length (explanation out) <= 3)%nat /\
  (explanation out = [no_signal_line] <-> a < 0.6 /\ seen = false /\ t <= 0) /\
  (explanation out = [no_signal_line] -> risk_level out <> High).
Proof.
  assert (Hcases :
    explanation out <> [] /\
    (List.length (explanation out) <= 3)%nat /\
    (explanation out = [no_signal_line] <-> a < 0.6 /\ seen = false /\ t <= 0)).
  { unfold out, run_fusion. fold a seen t.
    destruct (Py.Qleb 0.6 a) eqn:Ea; [apply Qleb_le in Ea | apply Qleb_gt in Ea];
    destruct seen eqn:Es;
    (destruct (Py.Qltb 0 t) eqn:Et; [apply Qltb_lt in Et | apply Qltb_ge in Et]);
    cbn [app explanation List.length];
    (split; [discriminate |]); (split; [lia |]);
    (split;
     [ intros H; try discriminate H;
       try (injection H as H'; exfalso; revert H'; apply text_line_not_fallback);
       repeat split; assumption
     | intros (H1 & H2 & H3); try reflexivity; try discriminate H2; exfalso; lra ]). }
  destruct Hcases as (H1 & H2 & H3).
  split; [exact H1 |]. split; [exact H2 |]. split; [exact H3 |].
  intros H. apply H3 in H as (Ha & Hs & Ht).
  rewrite run_fusion_level. intros Hh. apply level_of_High in Hh.
  unfold v, weighted_sum in Hh. rewrite Hs in Hh. lra.
Qed.

(** With vision confidence and text severity at most 1, the label High needs
    an audio score above 1/6: image and note alone never give High. *)
Theorem run_fusion_high_needs_audio :
  v <= 1 -> t <= 1 -> risk_level out = High -> 1 # 6 < a.
Proof.
  intros Hv Ht. rewrite run_fusion_level. intros Hh.
  apply level_of_High in Hh. unfold weighted_sum in Hh. lra.
Qed.

End FusionExplanation.

Lemma run_fusion_high_needs_audio_witness :
  let audio_out := Fusion.audio_of 0.9 in
  let vision_out := Fusion.vision_of true 0.8 in
  let text_out := Fusion.text_of 0.65 [] in
  (0.8 <= 1 /\ 0.65 <= 1 /\
   Fusion.risk_level (Fusion.run_fusion audio_out vision_out text_out) = Fusion.High) /\
  1 # 6 < 0.9.
Proof.
  assert (Hv : 0.8 <= 1) by discriminate.
  assert (Ht : 0.65 <= 1) by discriminate.
  assert (Hh : Fusion.risk_level
                 (Fusion.run_fusion (Fusion.audio_of 0.9) (Fusion.vision_of true 0.8)
                                    (Fusion.text_of 0.65 [])) = Fusion.High)
    by reflexivity.
  exact (conj (conj Hv (conj Ht Hh))
              (run_fusion_high_needs_audio (Fusion.audio_of 0.9)
                 (Fusion.vision_of true 0.8) (Fusion.text_of 0.65 []) Hv Ht Hh)).
Defined.

(** ** vision_test.py: what [run_vision] does with the boxes *)

Section VisionMore.

Import Vision Spec.

Variables (h w : positive).

Lemma loop_lists (bs : list detection) (st : loop_state) :
  st_detected (fold_left (loop_body (w * h)) bs st) =
  (st_detected st ++ map (entry (w * h)) bs)%list.
Proof.
  revert st. induction bs as [| b bs IH]; intros st; simpl.
  - now rewrite app_nil_r.
  - rewrite IH. simpl. now rewrite <- app_assoc.
Qed.

(** [detected] has one entry per box of the detector, of whatever label, in
    the detector's order: the label, the confidence and the area ratio, both
    rounded to 3 decimals. *)
Theorem run_vision_lists_every_box (boxes : list detection) :
  detected (run_vision boxes h w) = map (entry (w * h)) boxes.
Proof.
  unfold run_vision. cbn [detected]. now rewrite loop_lists.
Qed.

Lemma run_vision_numbers (boxes : list detection) :
  let c := Py.max_default (dog_confs boxes) 0.0 in
  let r := Py.max_default (dog_ratios (w * h) boxes) 0.0 in
  let k := Py.max_from 0.0 (car_confs boxes) in
  run_vision boxes h w =
  {| dog_detected := decide c r k;
     dog_conf := Py.round c 3;
     car_conf := Py.round k 3;
     best_area_ratio := Py.round r 3;
     detected := detected (run_vision boxes h w) |}.
Proof.
  unfold run_vision. cbn [detected].
  destruct (loop_collects h w boxes
              {| st_detected := []; st_dog_candidates := []; st_car_conf := 0.0 |})
    as [Hd Hcar].
  cbn [st_dog_candidates st_car_conf app] in Hd, Hcar. rewrite Hd, Hcar.
  rewrite !map_map. reflexivity.
Qed.

Lemma decide_false (c r k : Q) : ~ rule c r k -> decide c r k = false.
Proof.
  intros H. destruct (decide c r k) eqn:E; [| reflexivity].
  apply decide_rule in E. contradiction.
Qed.

Lemma no_dogs (boxes : list detection) :
  (forall d, In d boxes -> det_label d <> "dog"%string) -> dogs boxes = [].
Proof.
  intros H. unfold dogs. induction boxes as [| b bs IH]; [reflexivity |].
  simpl. destruct (String.eqb (det_label b) "dog") eqn:E.
  - apply String.eqb_eq in E. exfalso. apply (H b); [now left | exact E].
  - apply IH. intros d Hd. apply H. now right.
Qed.

(** When no box is labelled "dog" (in particular when the detector found
    nothing), no dog is reported and the dog confidence and the best area
    ratio are 0, whatever else is in the image. *)
Theorem run_vision_without_dog (boxes : list detection) :
  (forall d, In d boxes -> det_label d <> "dog"%string) ->
  dog_detected (run_vision boxes h w) = false /\
  dog_conf (run_vision boxes h w) == 0 /\
  best_area_ratio (run_vision boxes h w) == 0.
Proof.
  intros H. apply no_dogs in H. rewrite run_vision_numbers.
  unfold dog_confs, dog_ratios. rewrite H. cbn [map Py.max_default dog_detected
    dog_conf best_area_ratio].
  split; [| split; reflexivity].
  apply decide_false. unfold rule. intros [[[H1 _] | [H1 _]] _]; lra.
Qed.

Lemma dog_conf_bound (boxes : list detection) (b : Q) :
  0 <= b ->
  (forall d, In d boxes -> det_label d = "dog"%string -> det_conf d <= b) ->
  Py.max_default (dog_confs boxes) 0.0 <= b.
Proof.
  intros H0 H.
  destruct (max_default_greatest (dog_confs boxes) 0.0 0.0 (Qeq_refl _))
    as [[_ E] | [[y [Hin Ey]] _]]; [rewrite E; lra |].
  rewrite <- Ey. unfold dog_confs, dogs in Hin.
  apply in_map_iff in Hin as (d & <- & Hd). apply filter_In in Hd as [Hd Hl].
  apply H; [exact Hd | now apply String.eqb_eq].
Qed.

Lemma dog_conf_ge (boxes : list detection) (d : detection) :
  In d boxes -> det_label d = "dog"%string ->
  det_conf d <= Py.max_default (dog_confs boxes) 0.0 /\
  area_ratio (w * h) d <= Py.max_default (dog_ratios (w * h) boxes) 0.0.
Proof.
  intros Hin Hl.
  assert (Hd : In d (dogs boxes)).
  { unfold dogs. apply filter_In. split; [exact Hin | now apply String.eqb_eq]. }
  split.
  - destruct (max_default_greatest (dog_confs boxes) 0.0 0.0 (Qeq_refl _))
      as [[E _] | [_ Hge]].
    + unfold dog_confs in E. apply map_eq_nil in E. rewrite E in Hd. destruct Hd.
    + apply Hge. unfold dog_confs. now apply in_map.
  - destruct (max_default_greatest (dog_ratios (w * h) boxes) 0.0 0.0 (Qeq_refl _))
      as [[E _] | [_ Hge]].
    + unfold dog_ratios in E. apply map_eq_nil in E. rewrite E in Hd. destruct Hd.
    + apply Hge. unfold dog_ratios. now apply in_map.
Qed.

Lemma car_conf_ge (boxes : list detection) (d : detection) :
  In d boxes -> det_label d = "car"%string ->
  det_conf d <= Py.max_from 0.0 (car_confs boxes).
Proof.
  intros Hin Hl. destruct (max_from_spec (car_confs boxes) 0.0) as [_ Hge].
  apply Hge. right. unfold car_confs, cars. apply in_map. apply filter_In.
  split; [exact Hin | now apply String.eqb_eq].
Qed.

(** The car veto: when some "car" box has confidence at least 0.60 and every
    "dog" box has confidence below 0.85, no dog is reported, however large
    the dogs are. *)
Theorem run_vision_car_veto (boxes : list detection) (car : detection) :
  In car boxes -> det_label car = "car"%string -> 0.60 <= det_conf car ->
  (forall d, In d boxes -> det_label d = "dog"%string -> det_conf d < 0.85) ->
  dog_detected (run_vision boxes h w) = false.
Proof.
  intros Hin Hl Hc Hdogs. rewrite run_vision_numbers. cbn [dog_detected].
  apply decide_false. intros [_ Hn]. apply Hn. split.
  - apply Qle_trans with (det_conf car); [exact Hc | now apply car_conf_ge].
  - destruct (max_default_greatest (dog_confs boxes) 0.0 0.0 (Qeq_refl _))
      as [[_ E] | [[y [Hy Ey]] _]]; [rewrite E; reflexivity |].
    rewrite <- Ey. unfold dog_confs, dogs in Hy.
    apply in_map_iff in Hy as (d & <- & Hd). apply filter_In in Hd as [Hd Hld].
    apply Hdogs; [exact Hd | now apply String.eqb_eq].
Qed.

(** A "dog" box of confidence at least 0.85 that covers at least 3 percent of
    the image is reported whatever cars are in the image. *)
Theorem run_vision_clear_dog (boxes : list detection) (dog : detection) :
  In dog boxes -> det_label dog = "dog"%string ->
  0.85 <= det_conf dog -> 0.03 <= area_ratio (w * h) dog ->
  dog_detected (run_vision boxes h w) = true.
Proof.
  intros Hin Hl Hc Hr. rewrite run_vision_numbers. cbn [dog_detected].
  destruct (dog_conf_ge boxes dog Hin Hl) as [Hc' Hr'].
  apply decide_rule. split.
  - left. split; lra.
  - intros [_ H]. lra.
Qed.

Lemma greatest_or_ext (l l' : list Q) (d m : Q) :
  (forall x, In x l <-> In x l') -> greatest_or l d m -> greatest_or l' d m.
Proof.
  intros H [[E Hm] | [[y [Hy Ey]] Hge]].
  - left. split; [| exact Hm]. subst l. destruct l' as [| x l']; [reflexivity |].
    exfalso. apply (proj2 (H x)). now left.
  - right. split.
    + exists y. split; [now apply H | exact Ey].
    + intros x Hx. apply Hge. now apply H.
Qed.

Lemma max_default_ext (l l' : list Q) :
  (forall x, In x l <-> In x l') -> Py.max_default l 0.0 == Py.max_default l' 0.0.
Proof.
  intros H. apply (greatest_or_unique l' 0.0).
  - apply (greatest_or_ext l); [exact H |]. apply max_default_greatest. reflexivity.
  - apply max_default_greatest. reflexivity.
Qed.

Lemma max_from_ext (l l' : list Q) :
  (forall x, In x l <-> In x l') -> Py.max_from 0.0 l == Py.max_from 0.0 l'.
Proof.
  intros H.
  assert (G : forall l0, greatest_or (0.0 :: l0) 0.0 (Py.max_from 0.0 l0)).
  { intros l0. destruct (max_from_spec l0 0.0) as [Hin Hge]. right.
    split; [| exact Hge]. exists (Py.max_from 0.0 l0). split; [exact Hin | reflexivity]. }
  apply (greatest_or_unique (0.0 :: l') 0.0); [| apply G].
  apply (greatest_or_ext (0.0 :: l)); [| apply G].
  intros x. simpl. rewrite H. reflexivity.
Qed.

Lemma decide_comp (c c' r r' k k' : Q) :
  c == c' -> r == r' -> k == k' -> decide c r k = decide c' r' k'.
Proof.
  intros Hc Hr Hk. destruct (decide c' r' k') eqn:E.
  - apply decide_rule. apply decide_rule in E.
    apply (rule_comp c' c r' r k' k); auto; now symmetry.
  - apply decide_false. intros H. apply (rule_comp c c' r r' k k') in H; auto.
    apply decide_rule in H. congruence.
Qed.

Lemma same_members (f : detection -> Q) (label : string) (boxes boxes' : list detection) :
  (forall d, det_label d = label -> (In d boxes <-> In d boxes')) ->
  forall x,
    In x (map f (filter (fun d => String.eqb (det_label d) label) boxes)) <->
    In x (map f (filter (fun d => String.eqb (det_label d) label) boxes')).
Proof.
  intros H x. rewrite !in_map_iff.
  split; intros (d & Hx & Hd); exists d; (split; [exact Hx |]);
    apply filter_In in Hd as [Hd Hl]; apply filter_In; (split; [| exact Hl]);
    apply String.eqb_eq in Hl; now apply (H d Hl).
Qed.

(** The decision and the three reported numbers depend only on which "dog"
    and "car" boxes there are: two detector outputs with the same "dog" and
    "car" boxes, in any order, with any repetition and with any boxes of
    other labels, give the same [dog_detected], [dog_conf], [car_conf] and
    [best_area_ratio]. *)
Theorem run_vision_counts_dogs_and_cars (boxes boxes' : list detection) :
  (forall d, counted d = true -> (In d boxes <-> In d boxes')) ->
  dog_detected (run_vision boxes h w) = dog_detected (run_vision boxes' h w) /\
  dog_conf (run_vision boxes h w) = dog_conf (run_vision boxes' h w) /\
  car_conf (run_vision boxes h w) = car_conf (run_vision boxes' h w) /\
  best_area_ratio (run_vision boxes h w) = best_area_ratio (run_vision boxes' h w).
Proof.
  intros H.
  assert (Hdog : forall d, det_label d = "dog"%string -> (In d boxes <-> In d boxes')).
  { intros d Hl. apply H. unfold counted. rewrite Hl. reflexivity. }
  assert (Hcar : forall d, det_label d = "car"%string -> (In d boxes <-> In d boxes')).
  { intros d Hl. apply H. unfold counted. rewrite Hl. reflexivity. }
  assert (Ec : Py.max_default (dog_confs boxes) 0.0 ==
               Py.max_default (dog_confs boxes') 0.0)
    by (apply max_default_ext, same_members, Hdog).
  assert (Er : Py.max_default (dog_ratios (w * h) boxes) 0.0 ==
               Py.max_default (dog_ratios (w * h) boxes') 0.0)
    by (apply max_default_ext, same_members, Hdog).
  assert (Ek : Py.max_from 0.0 (car_confs boxes) == Py.max_from 0.0 (car_confs boxes'))
    by (apply max_from_ext, same_members, Hcar).
  rewrite (run_vision_numbers boxes), (run_vision_numbers boxes').
  cbn [dog_detected dog_conf car_conf best_area_ratio].
  split; [now apply decide_comp |].
  split; [now apply round_comp |]. split; now apply round_comp.
Qed.

End VisionMore.

Lemma run_vision_without_dog_witness :
  (forall d, In d [Spec.a_cat; Spec.a_car] -> Vision.det_label d <> "dog"%string) /\
  (Vision.dog_detected (Vision.run_vision [Spec.a_cat; Spec.a_car] 100 100) = false /\
   Vision.dog_conf (Vision.run_vision [Spec.a_cat; Spec.a_car] 100 100) == 0 /\
   Vision.best_area_ratio (Vision.run_vision [Spec.a_cat; Spec.a_car] 100 100) == 0).
Proof.
  assert (H : forall d, In d [Spec.a_cat; Spec.a_car] ->
                        Vision.det_label d <> "dog"%string).
  { intros d [<- | [<- | []]]; discriminate. }
  exact (conj H (run_vision_without_dog 100 100 [Spec.a_cat; Spec.a_car] H)).
Defined.

Lemma run_vision_car_veto_witness :
  (In Spec.a_car [Spec.a_dog; Spec.a_car] /\
   Vision.det_label Spec.a_car = "car"%string /\
   0.60 <= Vision.det_conf Spec.a_car /\
   (forall d, In d [Spec.a_dog; Spec.a_car] -> Vision.det_label d = "dog"%string ->
              Vision.det_conf d < 0.85)) /\
  Vision.dog_detected (Vision.run_vision [Spec.a_dog; Spec.a_car] 100 100) = false.
Proof.
  assert (Hin : In Spec.a_car [Spec.a_dog; Spec.a_car]) by (right; left; reflexivity).
  assert (Hl : Vision.det_label Spec.a_car = "car"%string) by reflexivity.
  assert (Hc : 0.60 <= Vision.det_conf Spec.a_car) by discriminate.
  assert (Hd : forall d, In d [Spec.a_dog; Spec.a_car] ->
                         Vision.det_label d = "dog"%string -> Vision.det_conf d < 0.85).
  { intros d [<- | [<- | []]] E; [reflexivity | discriminate E]. }
  exact (conj (conj Hin (conj Hl (conj Hc Hd)))
              (run_vision_car_veto 100 100 [Spec.a_dog; Spec.a_car] Spec.a_car
                 Hin Hl Hc Hd)).
Defined.

Lemma run_vision_clear_dog_witness :
  (In Spec.clear_dog [Spec.a_car; Spec.clear_dog] /\
   Vision.det_label Spec.clear_dog = "dog"%string /\
   0.85 <= Vision.det_conf Spec.clear_dog /\
   0.03 <= Vision.area_ratio (100 * 100) Spec.clear_dog) /\
  Vision.dog_detected (Vision.run_vision [Spec.a_car; Spec.clear_dog] 100 100) = true.
Proof.
  assert (Hin : In Spec.clear_dog [Spec.a_car; Spec.clear_dog])
    by (right; left; reflexivity).
  assert (Hl : Vision.det_label Spec.clear_dog = "dog"%string) by reflexivity.
  assert (Hc : 0.85 <= Vision.det_conf Spec.clear_dog) by discriminate.
  assert (Hr : 0.03 <= Vision.area_ratio (100 * 100) Spec.clear_dog)
    by (vm_compute; discriminate).
  exact (conj (conj Hin (conj Hl (conj Hc Hr)))
              (run_vision_clear_dog 100 100 [Spec.a_car; Spec.clear_dog]
                 Spec.clear_dog Hin Hl Hc Hr)).
Defined.

Lemma run_vision_counts_dogs_and_cars_witness :
  let boxes := [Spec.a_cat; Spec.a_dog; Spec.a_car] in
  let boxes' := [Spec.a_car; Spec.a_dog; Spec.a_dog] in
  (forall d, Spec.counted d = true -> (In d boxes <-> In d boxes')) /\
  (Vision.dog_detected (Vision.run_vision boxes 100 100) =
     Vision.dog_detected (Vision.run_vision boxes' 100 100) /\
   Vision.dog_conf (Vision.run_vision boxes 100 100) =
     Vision.dog_conf (Vision.run_vision boxes' 100 100) /\
   Vision.car_conf (Vision.run_vision boxes 100 100) =
     Vision.car_conf (Vision.run_vision boxes' 100 100) /\
   Vision.best_area_ratio (Vision.run_vision boxes 100 100) =
     Vision.best_area_ratio (Vision.run_vision boxes' 100 100)).
Proof.
  intros boxes boxes'.
  assert (H : forall d, Spec.counted d = true -> (In d boxes <-> In d boxes')).
  { intros d Hd. split.
    - intros [<- | [<- | [<- | []]]];
        [discriminate Hd | right; left; reflexivity | left; reflexivity].
    - intros [<- | [<- | [<- | []]]];
        [right; right; left; reflexivity | right; left; reflexivity
        | right; left; reflexivity]. }
  exact (conj H (run_vision_counts_dogs_and_cars 100 100 boxes boxes' H)).
Defined.

(** ** audio_test.py: few events, short clips, and the score as a function *)

Lemma max2_mono (a x y : Q) : x <= y -> Py.max2 a x <= Py.max2 a y.
Proof. intros H. unfold Py.max2. by_cases_on_comparisons; lra. Qed.

Lemma min2_mono (a x y : Q) : x <= y -> Py.min2 a x <= Py.min2 a y.
Proof. intros H. unfold Py.min2. by_cases_on_comparisons; lra. Qed.

Lemma guard_pos (d : Q) : 0 < Py.max2 (1 # 1000000000) (d / 10.0).
Proof. apply Qlt_le_trans with (1 # 1000000000); [reflexivity | apply max2_ge_l]. Qed.

(** The undamped score of lines 152-160. *)
Lemma raw_score_mono (n m : nat) (d1 d2 : Q) :
  (n <= m)%nat -> d2 <= d1 ->
  let raw k d :=
    Py.min2 1.0
      (0.5 * Py.min2 1.0
               (inject_Z (Z.of_nat k) / Py.max2 (1 # 1000000000) (d / 10.0) / 6.0)
       + 0.5 * Py.min2 1.0 (inject_Z (Z.of_nat k) / 25.0)) in
  0 <= raw n d1 /\ raw n d1 <= raw m d2.
Proof.
  intros Hnm Hd raw.
  pose proof (count_nonneg n) as Hn.
  assert (Hq : inject_Z (Z.of_nat n) <= inject_Z (Z.of_nat m))
    by (rewrite <- Zle_Qle; lia).
  set (nq := inject_Z (Z.of_nat n)) in *. set (mq := inject_Z (Z.of_nat m)) in *.
  pose proof (guard_pos d1) as Hg1. pose proof (guard_pos d2) as Hg2.
  assert (Hg : Py.max2 (1 # 1000000000) (d2 / 10.0) <=
               Py.max2 (1 # 1000000000) (d1 / 10.0)).
  { apply max2_mono. unfold Qdiv. apply Qmult_le_compat_r; [exact Hd | discriminate]. }
  set (g1 := Py.max2 (1 # 1000000000) (d1 / 10.0)) in *.
  set (g2 := Py.max2 (1 # 1000000000) (d2 / 10.0)) in *.
  assert (Hrate0 : 0 <= nq / g1).
  { apply Qle_shift_div_l; [exact Hg1 |]. rewrite Qmult_0_l. exact Hn. }
  assert (Hrate : nq / g1 <= mq / g2).
  { apply Qle_shift_div_l; [exact Hg2 |].
    apply Qle_trans with nq; [| exact Hq].
    apply Qle_trans with (nq / g1 * g1).
    - apply Qmult_le_compat_nonneg; [split; [exact Hrate0 | apply Qle_refl] |].
      split; [apply Qlt_le_weak, Hg2 | exact Hg].
    - unfold Qdiv. rewrite <- Qmult_assoc, (Qmult_comm (/ g1)), Qmult_inv_r.
      + rewrite Qmult_1_r. apply Qle_refl.
      + intros E. rewrite E in Hg1. discriminate Hg1. }
  assert (Hr6 : nq / g1 / 6.0 <= mq / g2 / 6.0).
  { unfold Qdiv at 1 3. apply Qmult_le_compat_r; [exact Hrate | discriminate]. }
  assert (Hr60 : 0 <= nq / g1 / 6.0).
  { apply Qle_shift_div_l; [reflexivity |]. rewrite Qmult_0_l. exact Hrate0. }
  assert (Hc : nq / 25.0 <= mq / 25.0).
  { unfold Qdiv. apply Qmult_le_compat_r; [exact Hq | discriminate]. }
  assert (Hc0 : 0 <= nq / 25.0).
  { apply Qle_shift_div_l; [reflexivity |]. rewrite Qmult_0_l. exact Hn. }
  pose proof (min2_mono 1.0 _ _ Hr6) as M1. pose proof (min2_mono 1.0 _ _ Hc) as M2.
  pose proof (min2_unit _ Hr60) as U1. pose proof (min2_unit _ Hc0) as U2.
  subst raw. cbv beta. fold nq mq g1 g2.
  set (r1 := Py.min2 1.0 (nq / g1 / 6.0)) in *.
  set (r2 := Py.min2 1.0 (mq / g2 / 6.0)) in *.
  set (c1 := Py.min2 1.0 (nq / 25.0)) in *.
  set (c2 := Py.min2 1.0 (mq / 25.0)) in *.
  assert (H0 : 0 <= 0.5 * r1 + 0.5 * c1) by lra.
  split; [apply (min2_unit _ H0) |].
  apply min2_mono. lra.
Qed.

(** The score of lines 152-165 never goes down when events are added, and
    never goes up when the clip gets longer: with [n <= m] events and
    durations [d2 <= d1], the score of [n] events in [d1] seconds is at most
    that of [m] events in [d2] seconds (the damping by 0.4 below 4 events
    included). *)
Theorem score_monotone (n m : nat) (d1 d2 : Q) :
  (n <= m)%nat -> d2 <= d1 -> Audio.score n d1 <= Audio.score m d2.
Proof.
  intros Hnm Hd. destruct (raw_score_mono n m d1 d2 Hnm Hd) as [H0 Hle].
  cbv zeta beta in H0, Hle. unfold Audio.score. cbv zeta.
  destruct (n <? 4)%nat eqn:En, (m <? 4)%nat eqn:Em.
  - lra.
  - lra.
  - apply Nat.ltb_ge in En. apply Nat.ltb_lt in Em. lia.
  - exact Hle.
Qed.

Lemma score_monotone_witness :
  ((3 <= 4)%nat /\ 2 <= 10) /\ Audio.score 3 10 <= Audio.score 4 2.
Proof.
  assert (Hn : (3 <= 4)%nat) by lia.
  assert (Hd : 2 <= 10) by discriminate.
  exact (conj (conj Hn Hd) (score_monotone 3 4 10 2 Hn Hd)).
Defined.

Lemma score_few_events (n : nat) (d : Q) : (n < 4)%nat -> Audio.score n d <= 0.224.
Proof.
  intros Hn. unfold Audio.score.
  rewrite (proj2 (Nat.ltb_lt n 4) Hn).
  assert (Hq : inject_Z (Z.of_nat n) <= 3).
  { change 3 with (inject_Z 3). rewrite <- Zle_Qle. lia. }
  set (nq := inject_Z (Z.of_nat n)) in *.
  pose proof (min2_le_l 1.0 (nq / Py.max2 (1 # 1000000000) (d / 10.0) / 6.0)) as Hr.
  assert (E25 : nq / 25.0 == nq * (1 # 25))
    by (unfold Qdiv; apply Qmult_comp; reflexivity).
  assert (Hc : Py.min2 1.0 (nq / 25.0) <= 3 # 25).
  { unfold Py.min2. by_cases_on_comparisons; rewrite E25 in *; lra. }
  set (rate := Py.min2 1.0 (nq / Py.max2 (1 # 1000000000) (d / 10.0) / 6.0)) in *.
  set (count := Py.min2 1.0 (nq / 25.0)) in *.
  assert (Hraw : Py.min2 1.0 (0.5 * rate + 0.5 * count) <= 0.5 * rate + 0.5 * count).
  { unfold Py.min2. by_cases_on_comparisons; lra. }
  lra.
Qed.

(** With fewer than 4 detected events the returned score is at most 0.224,
    however short the clip: below 4 events the raw score is at most
    0.5 + 0.5 * 3/25 and is multiplied by 0.4. *)
Theorem run_audio_few_events (len_y : N) (sr : positive) (rms : list Q)
                             (r : Audio.result) :
  Audio.run_audio len_y sr rms = Some r -> (Audio.events r < 4)%nat ->
  Audio.cough_score r <= 0.224.
Proof.
  unfold Audio.run_audio. destruct (Audio.smooth rms) as [s |]; [| discriminate].
  intros H. apply Some_inj in H. subst r. cbn [Audio.cough_score Audio.events].
  intros Hn.
  apply Qle_trans with (Py.round 0.224 3); [| discriminate].
  apply round_mono, score_few_events, Hn.
Qed.

Lemma run_audio_few_events_witness :
  let r := {| Audio.cough_score := 0.13; Audio.events := 1;
              Audio.timestamps := [0.33] |} in
  (Audio.run_audio 60416 22050 Audio.one_burst = Some r /\ (Audio.events r < 4)%nat) /\
  Audio.cough_score r <= 0.224.
Proof.
  intros r.
  assert (H : Audio.run_audio 60416 22050 Audio.one_burst = Some r) by (vm_compute; reflexivity).
  assert (Hn : (Audio.events r < 4)%nat) by (simpl; lia).
  exact (conj (conj H Hn) (run_audio_few_events 60416 22050 Audio.one_burst r H Hn)).
Defined.

Lemma detect_peaks_none (s : list Q) (dist : Z) (thr : Q) :
  (forall i, In i (Audio.inner_indices s) -> Audio.is_peak s thr i = false) ->
  Audio.detect_peaks s dist thr = [].
Proof.
  unfold Audio.detect_peaks. generalize (Audio.inner_indices s) as l.
  induction l as [| i l IH]; intros H; simpl; [reflexivity |].
  unfold Audio.peak_step at 2. rewrite H by now left.
  apply IH. intros j Hj. apply H. now right.
Qed.

Lemma find_peaks_none (s : list Q) (sr : positive) :
  (forall i thr, In i (Audio.inner_indices s) -> Audio.is_peak s thr i = false) ->
  Audio.find_peaks s sr = [].
Proof.
  intros H. unfold Audio.find_peaks. cbn [Audio.try_thresholds].
  rewrite !detect_peaks_none; try reflexivity; intros i Hi; now apply H.
Qed.

Lemma is_peak_not_max (s : list Q) (thr : Q) (i : nat) :
  nth i s 0 <= nth (i - 1) s 0 \/ nth i s 0 <= nth (i + 1) s 0 ->
  Audio.is_peak s thr i = false.
Proof.
  intros H. unfold Audio.is_peak.
  destruct H as [H | H]; apply Qltb_ge in H; rewrite H;
    [now rewrite andb_false_r | now rewrite andb_false_r].
Qed.

Lemma run_audio_no_events (len_y : N) (sr : positive) (rms s : list Q) :
  Audio.smooth rms = Some s -> Audio.find_peaks s sr = [] ->
  Audio.run_audio len_y sr rms =
    Some {| Audio.cough_score := 0; Audio.events := 0; Audio.timestamps := [] |}.
Proof.
  intros Hs Hp. unfold Audio.run_audio. rewrite Hs, Hp. simpl.
  rewrite (round_comp 3 _ 0) by apply score_no_events.
  reflexivity.
Qed.

(** A clip of at most 4 RMS frames never yields an event: the moving
    average over 5 frames has no interior frame that is strictly above both
    neighbours, so the result is 0 events and score 0 whatever the
    loudness. *)
Theorem run_audio_short_clip (len_y : N) (sr : positive) (rms : list Q) :
  rms <> [] -> (List.length rms <= 4)%nat -> Forall (fun x => 0 <= x) rms ->
  Audio.run_audio len_y sr rms =
    Some {| Audio.cough_score := 0; Audio.events := 0; Audio.timestamps := [] |}.
Proof.
  intros Hne Hlen Hpos.
  destruct rms as [| a [| b [| c [| d [| e rms]]]]];
    [contradiction | | | | | simpl in Hlen; lia];
    repeat match goal with
           | H : Forall _ (_ :: _) |- _ => inversion H; subst; clear H
           end;
    (eapply run_audio_no_events;
     [ unfold Audio.smooth; change (Audio.ones_over 5) with (repeat (1 # 5) 5);
       cbv - [Qplus Qmult]; reflexivity
     | apply find_peaks_none;
       intros i thr [<- | [<- | [<- | []]]]; apply is_peak_not_max;
       cbn [nth Nat.sub Nat.add]; lra ]).
Qed.

Lemma run_audio_short_clip_witness :
  ([0.02; 0.3; 0.01] <> [] /\ (List.length [0.02; 0.3; 0.01]%Q <= 4)%nat /\
   Forall (fun x => 0 <= x) [0.02; 0.3; 0.01]) /\
  Audio.run_audio 2500 22050 [0.02; 0.3; 0.01] =
    Some {| Audio.cough_score := 0; Audio.events := 0; Audio.timestamps := [] |}.
Proof.
  assert (Hne : [0.02; 0.3; 0.01] <> []) by discriminate.
  assert (Hlen : (List.length [0.02; 0.3; 0.01]%Q <= 4)%nat) by (simpl; lia).
  assert (Hpos : Forall (fun x => 0 <= x) [0.02; 0.3; 0.01])
    by (repeat constructor; discriminate).
  exact (conj (conj Hne (conj Hlen Hpos))
              (run_audio_short_clip 2500 22050 [0.02; 0.3; 0.01] Hne Hlen Hpos)).
Defined.

(** ** audio_test.py: the label the script writes *)

Section ScriptLabel.

Import AudioScript.

Local Open Scope string_scope.

Lemma count_le (n : nat) (k : Z) : (Z.of_nat n <= k)%Z -> inject_Z (Z.of_nat n) <= inject_Z k.
Proof. intros H. now rewrite <- Zle_Qle. Qed.

Lemma count_ge (n : nat) (k : Z) : (k <= Z.of_nat n)%Z -> inject_Z k <= inject_Z (Z.of_nat n).
Proof. intros H. now rewrite <- Zle_Qle. Qed.

Lemma min2_cases (a b : Q) :
  (Py.min2 a b = a /\ a <= b) \/ (Py.min2 a b = b /\ b < a).
Proof. unfold Py.min2. by_cases_on_comparisons; auto. Qed.

Lemma label_of_count (ts : list Q) :
  let n := List.length ts in
  ((n <= 4)%nat -> label (risk_score ts) = "Low") /\
  ((5 <= n <= 8)%nat -> label (risk_score ts) = "Moderate") /\
  ((9 <= n)%nat -> label (risk_score ts) = "High").
Proof.
  intros n. unfold label, risk_score. fold n.
  set (nq := inject_Z (Z.of_nat n)).
  destruct (min2_cases 1.0 (nq * 0.07)) as [[-> Hm] | [-> Hm]];
    repeat split; intros H.
  - exfalso. assert (Hq : nq <= inject_Z 4) by (apply count_le; lia).
    change (inject_Z 4) with 4 in Hq. lra.
  - exfalso. assert (Hq : nq <= inject_Z 8) by (apply count_le; lia).
    change (inject_Z 8) with 8 in Hq. lra.
  - assert (Hq : nq <= inject_Z 4) by (apply count_le; lia).
    change (inject_Z 4) with 4 in Hq.
    by_cases_on_comparisons; try reflexivity; exfalso; lra.
  - assert (Hq : inject_Z 5 <= nq) by (apply count_ge; lia).
    assert (Hq' : nq <= inject_Z 8) by (apply count_le; lia).
    change (inject_Z 5) with 5 in Hq. change (inject_Z 8) with 8 in Hq'.
    by_cases_on_comparisons; try reflexivity; exfalso; lra.
  - assert (Hq : inject_Z 9 <= nq) by (apply count_ge; lia).
    change (inject_Z 9) with 9 in Hq.
    by_cases_on_comparisons; try reflexivity; exfalso; lra.
Qed.

(** The label the script writes depends on the number of frames above the
    energy threshold only: "Low" up to 4 frames, "Moderate" for 5 to 8,
    "High" from 9 on; the score written under both "risk_score" and
    "audio_risk_score" is 0.07 per frame and reaches 1 at 15 frames. *)
Theorem analysis_label_by_count (sr : positive) (cough_frames : list nat) :
  let n := List.length cough_frames in
  let written := Json.get (analysis sr cough_frames) in
  (written "risk_label" = Some (Json.Str "Low") <-> (n <= 4)%nat) /\
  (written "risk_label" = Some (Json.Str "Moderate") <-> (5 <= n <= 8)%nat) /\
  (written "risk_label" = Some (Json.Str "High") <-> (9 <= n)%nat) /\
  written "audio_risk_score" = written "risk_score" /\
  (exists q, written "risk_score" = Some (Json.Num q) /\
             q == Qmin 1 (inject_Z (Z.of_nat n) * 0.07) /\
             (q == 1 <-> (15 <= n)%nat)).
Proof.
  intros n written. subst written. cbn [analysis Json.get String.eqb Ascii.eqb Bool.eqb].
  pose proof (label_of_count (timestamps sr cough_frames)) as H.
  assert (Hn : List.length (timestamps sr cough_frames) = n)
    by (unfold timestamps; apply length_map).
  cbv zeta in H. rewrite Hn in H.
  destruct H as (Hlow & Hmod & Hhigh).
  assert (Hcases : (n <= 4)%nat \/ (5 <= n <= 8)%nat \/ (9 <= n)%nat) by lia.
  split; [| split; [| split; [| split]]].
  - destruct Hcases as [C | [C | C]];
      [rewrite (Hlow C) | rewrite (Hmod C) | rewrite (Hhigh C)];
      split; intros E; try reflexivity; try discriminate E; lia.
  - destruct Hcases as [C | [C | C]];
      [rewrite (Hlow C) | rewrite (Hmod C) | rewrite (Hhigh C)];
      split; intros E; try reflexivity; try discriminate E; lia.
  - destruct Hcases as [C | [C | C]];
      [rewrite (Hlow C) | rewrite (Hmod C) | rewrite (Hhigh C)];
      split; intros E; try reflexivity; try discriminate E; lia.
  - reflexivity.
  - eexists. split; [reflexivity |].
    unfold risk_score. rewrite Hn.
    rewrite min2_eq_Qmin. split; [apply Q.min_compat; reflexivity |].
    set (nq := inject_Z (Z.of_nat n)).
    split.
    + intros E. destruct (le_lt_dec 15 n) as [L | L]; [exact L | exfalso].
      assert (Hq : nq <= inject_Z 14) by (apply count_le; lia).
      change (inject_Z 14) with 14 in Hq.
      rewrite Q.min_r in E by lra. lra.
    + intros L. assert (Hq : inject_Z 15 <= nq) by (apply count_ge; lia).
      change (inject_Z 15) with 15 in Hq.
      rewrite Q.min_l by lra. reflexivity.
Qed.

End ScriptLabel.

(** ** text_prototype.py: notes without text, and the shape of the result *)

Section TextShape.

Import Text Spec.






Lemma round_exact (q : Q) (n : nat) (z : Z) :
  q * inject_Z (Py.pow10 n) == inject_Z z -> Py.round q n == q.
Proof.
  intros H. unfold Py.round.
  rewrite (round_half_even_at _ z) by (rewrite H; lra).
  rewrite Qred_correct, <- H. pose proof (pow10_pos n) as Hp.
  field. intros E. rewrite E in Hp. discriminate Hp.
Qed.

(** [q] is a whole number of twentieths. *)
Lemma twentieth (q : Q) :
  Qden (Qred (q * 20)) = 1%positive -> exists z, q * 20 == inject_Z z.
Proof.
  intros H. exists (Qnum (Qred (q * 20))).
  rewrite <- (Qred_correct (q * 20)) at 1.
  destruct (Qred (q * 20)) as [num den]. simpl in *. subst den. reflexivity.
Qed.

Lemma round_twentieths (x y : Q) :
  Qden (Qred (x * 20)) = 1%positive -> Qden (Qred (y * 20)) = 1%positive ->
  Py.round (x + y) 3 == x + y.
Proof.
  intros Hx Hy. apply twentieth in Hx as [zx Hx]. apply twentieth in Hy as [zy Hy].
  apply (round_exact _ 3 (50 * (zx + zy))).
  change (inject_Z (Py.pow10 3)) with 1000.
  rewrite inject_Z_mult, inject_Z_plus. change (inject_Z 50) with 50. lra.
Qed.

(** The keywords, when they come from a filter [f] of the concepts. *)
Lemma keywords_by_cases (f : string * list string -> bool) :
  let keywords := dedup (map fst (filter f concepts)) in
  subseq keywords concept_names = true /\
  Qden (Qred (Py.sum (map (fun k => weights_get weights k 0.10) keywords) * 20))
  = 1%positive.
Proof.
  unfold concepts. cbn [filter].
  repeat match goal with
         | |- context [f ?x] => destruct (f x)
         end;
  vm_compute; split; reflexivity.
Qed.

(** The modifiers, when they come from a test [g] of the four rules. *)
Lemma modifiers_by_cases (g : regex -> bool) :
  let found :=
    fold_left (fun (acc : list string * Q) (rule : regex * string * Q) =>
                 let '(r, name, w) := rule in
                 if g r then ((fst acc ++ [name])%list, snd acc + w) else acc)
              modifier_rules ([], 0.0) in
  subseq (fst found) modifier_names = true /\
  snd found == Py.sum (map modifier_weight (fst found)) /\
  Qden (Qred (snd found * 20)) = 1%positive.
Proof.
  unfold modifier_rules. cbn [fold_left].
  repeat match goal with
         | |- context [g ?x] => destruct (g x)
         end;
  vm_compute; repeat split; reflexivity.
Qed.

(** The keywords are concept names in the order cough, gagging, sneeze,
    lethargy, daycare, appetite_loss, each at most once; the modifiers are
    among frequent, daily/multiple, night, dry/hacking, in that order, each
    at most once; and the severity is the sum of the weights of the reported
    keywords and modifiers, capped at 1: rounding to 3 decimals never changes
    it. *)
Theorem run_text_shape (owner_note : string) :
  let r := run_text owner_note in
  subseq (keywords r) concept_names = true /\
  subseq (modifiers_detected r) modifier_names = true /\
  severity_score r ==
    Qmin 1 (Py.sum (map (fun k => weights_get weights k 0.10) (keywords r))
            + Py.sum (map modifier_weight (modifiers_detected r))).
Proof.
  unfold run_text. destruct (lower (strip (chars owner_note))) as [| c t].
  - vm_compute. repeat split; reflexivity.
  - set (t' := c :: t).
    destruct (keywords_by_cases
                (fun cp => scan_patterns t' (mem (fst cp) symptom_concepts) (snd cp)))
      as [Hk Hk20].
    destruct (modifiers_by_cases (fun r => re_search r t')) as (Hm & Hi & Hm20).
    unfold detect, apply_modifier.
    destruct (fold_left _ modifier_rules _) as [modifiers intensity].
    cbn [fst snd keywords modifiers_detected severity_score] in *.
    split; [exact Hk |]. split; [exact Hm |].
    rewrite min2_eq_Qmin.
    rewrite (round_twentieths _ _ Hk20 Hm20), Hi. apply Q.min_compat; reflexivity.
Qed.

End TextShape.


(** ** text_prototype.py: [analyze_owner_note] *)

Section OwnerNote.

Import Text Note.

Local Open Scope string_scope.

Lemma starts_with_spec (w t : text) :
  starts_with w t = true <-> exists post, t = (w ++ post)%list.
Proof.
  revert t. induction w as [| c w IH]; intros t; simpl.
  - split; [intros _; now exists t | reflexivity].
  - destruct t as [| d t].
    + split; [discriminate | intros [post H]; discriminate H].
    + rewrite andb_true_iff, Ascii.eqb_eq, IH. split.
      * intros [-> [post ->]]. now exists post.
      * intros [post H]. injection H as -> ->. split; [reflexivity | now exists post].
Qed.

(** [w in t]: [w] is a substring of [t]. *)
Lemma contains_spec (w t : text) :
  contains w t = true <-> exists pre post, t = (pre ++ w ++ post)%list.
Proof.
  induction t as [| d t IH]; simpl; rewrite orb_true_iff, starts_with_spec.
  - split.
    + intros [[post H] | H]; [| discriminate H]. now exists [], post.
    + intros (pre & post & H). left. destruct pre; [now exists post | discriminate H].
  - rewrite IH. split.
    + intros [[post H] | (pre & post & H)].
      * now exists [], post.
      * exists (d :: pre), post. simpl. now rewrite H.
    + intros (pre & post & H). destruct pre as [| e pre].
      * left. now exists post.
      * right. injection H as _ H. now exists pre, post.
Qed.

(** The score and the label by the three tests of lines 35-40. *)
Lemma note_cases (note : string) :
  let r := analyze_owner_note note in
  let s := nonempty (found_symptoms r) in
  let c := nonempty (found_context r) in
  let v := nonempty (found_severity r) in
  text_risk_score r ==
    (if s then 0.4 else 0) + (if c then 0.3 else 0) + (if v then 0.3 else 0) /\
  text_risk_label r =
    (if s && (c || v) then "High"
     else if s || (c && v) then "Medium"
     else "Low").
Proof.
  unfold analyze_owner_note.
  cbn [found_symptoms found_context found_severity text_risk_score text_risk_label].
  destruct (nonempty (found symptom_keywords (lower (chars note))));
    destruct (nonempty (found context_keywords (lower (chars note))));
    destruct (nonempty (found severity_keywords (lower (chars note))));
    split; reflexivity.
Qed.

(** The label by what was found: High exactly when a symptom keyword was
    found together with a context or a severity keyword; Medium exactly when
    only symptom keywords were found, or context and severity keywords
    without a symptom keyword; Low otherwise.  The score is 0.4 for
    symptoms plus 0.3 for context plus 0.3 for severity, however many
    keywords of a kind were found. *)
Theorem analyze_owner_note_label (note : string) :
  let r := analyze_owner_note note in
  let s := nonempty (found_symptoms r) in
  let c := nonempty (found_context r) in
  let v := nonempty (found_severity r) in
  (text_risk_label r = "High" <-> s = true /\ (c = true \/ v = true)) /\
  (text_risk_label r = "Medium" <->
     (s = true /\ c = false /\ v = false) \/ (s = false /\ c = true /\ v = true)) /\
  (text_risk_label r = "Low" <-> s = false /\ (c = false \/ v = false)) /\
  text_risk_score r ==
    (if s then 0.4 else 0) + (if c then 0.3 else 0) + (if v then 0.3 else 0).
Proof.
  intros r s c v. destruct (note_cases note) as [Hs Hl].
  fold r s c v in Hs, Hl. rewrite Hl.
  split; [| split; [| split; [| exact Hs]]];
    destruct s, c, v; cbn [andb orb];
    (split; [intros E; try discriminate E; tauto |]);
    intros H; try reflexivity; exfalso;
    intuition discriminate.
Qed.

(** A symptom keyword that stands anywhere in the lower-cased note, inside a
    longer word or after a negation as well, is found, and the note is then
    rated at least Medium, with a score of at least 0.4. *)
Theorem analyze_owner_note_substring (note w : string) (pre post : text) :
  In w symptom_keywords ->
  lower (chars note) = (pre ++ chars w ++ post)%list ->
  let r := analyze_owner_note note in
  In w (found_symptoms r) /\
  (text_risk_label r = "Medium" \/ text_risk_label r = "High") /\
  0.4 <= text_risk_score r.
Proof.
  intros Hw Ht r.
  assert (Hin : In w (found_symptoms r)).
  { unfold r, analyze_owner_note. cbn [found_symptoms]. unfold found.
    apply filter_In. split; [exact Hw |]. apply contains_spec. now exists pre, post. }
  split; [exact Hin |].
  destruct (note_cases note) as [Hs Hl]. fold r in Hs, Hl.
  destruct (found_symptoms r) as [| x l]; [destruct Hin |].
  cbn [nonempty andb orb] in Hs, Hl. rewrite Hl, Hs.
  destruct (nonempty (found_context r)), (nonempty (found_severity r));
    cbn [orb]; split; auto; discriminate.
Qed.

End OwnerNote.

Lemma analyze_owner_note_substring_witness :
  let note := "No coughing today"%string in
  let pre := Text.chars "no " in
  let post := Text.chars "ing today" in
  let r := Note.analyze_owner_note note in
  (In "cough"%string Note.symptom_keywords /\
   Text.lower (Text.chars note) = (pre ++ Text.chars "cough" ++ post)%list) /\
  (In "cough"%string (Note.found_symptoms r) /\
   (Note.text_risk_label r = "Medium"%string \/ Note.text_risk_label r = "High"%string) /\
   0.4 <= Note.text_risk_score r).
Proof.
  intros note pre post r.
  assert (Hw : In "cough"%string Note.symptom_keywords) by (left; reflexivity).
  assert (Ht : Text.lower (Text.chars note) = (pre ++ Text.chars "cough" ++ post)%list)
    by reflexivity.
  exact (conj (conj Hw Ht) (analyze_owner_note_substring note "cough" pre post Hw Ht)).
Defined.

(** ** fusion_test.py: the fusion of [main] *)

Section FusionMain.

Import FusionScript.

Local Open Scope string_scope.

Variables (audio text : loaded).

Let a : option Q := Json.number (audio_score audio).
Let t : option Q := Json.number (text_score text).
Let out : summary := main audio text.

Lemma main_numbers :
  numbers [audio_score audio; text_score text] =
  ((match a with Some x => [x] | None => [] end) ++
   (match t with Some y => [y] | None => [] end))%list.
Proof. unfold numbers. cbn [flat_map]. now rewrite app_nil_r. Qed.

Lemma label_comp (x y : Q) : x == y -> label (Some x) = label (Some y).
Proof.
  intros E. unfold label. by_cases_on_comparisons; try reflexivity; exfalso; lra.
Qed.

(** A score that is missing, or is not a number, is left out of the mean
    rather than counted as 0: with one score the fused score is that score
    and the label is the label of that score alone; without any, there is no
    fused score and the label is "Unknown". *)
Theorem main_missing_scores :
  (a = None -> t = None ->
   fused_risk_score out = None /\ fused_risk_label out = "Unknown") /\
  (forall x, a = Some x -> t = None ->
     (exists f, fused_risk_score out = Some f /\ f == x) /\
     fused_risk_label out = label (Some x)) /\
  (forall y, a = None -> t = Some y ->
     (exists f, fused_risk_score out = Some f /\ f == y) /\
     fused_risk_label out = label (Some y)) /\
  (fused_risk_label out = "Unknown" <-> a = None /\ t = None).
Proof.
  unfold out, main. cbn [fused_risk_score fused_risk_label].
  rewrite main_numbers.
  assert (One : forall x : Q, Py.sum [x] / inject_Z (Z.of_nat 1) == x).
  { intros x. unfold Py.sum. cbn [fold_left]. change (inject_Z (Z.of_nat 1)) with 1.
    field. }
  assert (Known : forall s, label (Some s) <> "Unknown").
  { intros s. unfold label. by_cases_on_comparisons; discriminate. }
  split; [| split; [| split]].
  - intros -> ->. split; reflexivity.
  - intros x -> ->. cbn [app fused_score List.length]. split.
    + eexists. split; [reflexivity | apply One].
    + apply label_comp, One.
  - intros y -> ->. cbn [app fused_score List.length]. split.
    + eexists. split; [reflexivity | apply One].
    + apply label_comp, One.
  - destruct a as [x |], t as [y |]; cbn [app fused_score]; split;
      try (intros E; exfalso; revert E; apply Known);
      try (intros [E1 E2]; discriminate);
      try reflexivity.
    intros _. split; reflexivity.
Qed.

(** With both scores present and at most 1, the fused score is their mean,
    and the label "High" (mean at least 0.75) needs both scores to be at
    least 0.5. *)
Theorem main_high_needs_both (x y : Q) :
  a = Some x -> t = Some y -> x <= 1 -> y <= 1 ->
  (exists f, fused_risk_score out = Some f /\ f == (x + y) / 2) /\
  (fused_risk_label out = "High" -> 0.5 <= x /\ 0.5 <= y).
Proof.
  intros Ha Ht Hx Hy. unfold out, main. cbn [fused_risk_score fused_risk_label].
  rewrite main_numbers, Ha, Ht. cbn [app fused_score List.length].
  assert (Mean : Py.sum [x; y] / inject_Z (Z.of_nat 2) == (x + y) / 2).
  { unfold Py.sum. cbn [fold_left]. change (inject_Z (Z.of_nat 2)) with 2. field. }
  split.
  - eexists. split; [reflexivity | exact Mean].
  - rewrite (label_comp _ _ Mean). unfold label.
    assert (E : (x + y) / 2 == (x + y) * (1 # 2)) by (unfold Qdiv; reflexivity).
    by_cases_on_comparisons; try discriminate. intros _. rewrite E in *. split; lra.
Qed.

Lemma main_two_numbers (x y : Q) :
  audio_score audio = Some (Json.Num x) -> text_score text = Some (Json.Num y) ->
  audio_risk_score out = Some (Json.Num x) /\
  text_risk_score out = Some (Json.Num y) /\
  exists f, fused_risk_score out = Some f /\ f == (x + y) / 2.
Proof.
  intros Ea Et. unfold out, main.
  cbn [audio_risk_score text_risk_score fused_risk_score].
  rewrite Ea, Et. split; [reflexivity |]. split; [reflexivity |].
  unfold numbers. cbn [flat_map Json.number app fused_score List.length].
  eexists. split; [reflexivity |].
  unfold Py.sum. cbn [fold_left]. change (inject_Z (Z.of_nat 2)) with 2.
  field.
Qed.

End FusionMain.

Lemma main_high_needs_both_witness :
  let audio := (Some "results/audio_analysis_1.json"%string,
                Some [("risk_score"%string, Json.Num 0.63)]) in
  let text := (Some "results/text_analysis_1.json"%string,
               Some [("text_risk_score"%string, Json.Num 1.0)]) in
  (Json.number (FusionScript.audio_score audio) = Some 0.63 /\
   Json.number (FusionScript.text_score text) = Some 1.0 /\
   0.63 <= 1 /\ 1.0 <= 1) /\
  ((exists f, FusionScript.fused_risk_score (FusionScript.main audio text) = Some f /\
              f == (0.63 + 1.0) / 2) /\
   (FusionScript.fused_risk_label (FusionScript.main audio text) = "High"%string ->
    0.5 <= 0.63 /\ 0.5 <= 1.0)).
Proof.
  intros audio text.
  assert (Ha : Json.number (FusionScript.audio_score audio) = Some 0.63) by reflexivity.
  assert (Ht : Json.number (FusionScript.text_score text) = Some 1.0) by reflexivity.
  assert (Hx : 0.63 <= 1) by discriminate.
  assert (Hy : 1.0 <= 1) by discriminate.
  exact (conj (conj Ha (conj Ht (conj Hx Hy)))
              (main_high_needs_both audio text 0.63 1.0 Ha Ht Hx Hy)).
Defined.

(** ** The scripts together: what [fusion_test.py] reads of what
    [audio_test.py] and [text_prototype.py] write *)

(** The latest audio analysis and the latest text analysis, read back by
    [main]: the audio score comes from the key "risk_score" and the text
    score from the key "text_risk_score", and the fused score is their
    mean. *)
Theorem main_reads_the_scripts (audio_file text_file : string) (sr : positive)
                               (cough_frames : list nat) (note : string) :
  audio_file <> ""%string -> text_file <> ""%string ->
  let audio := (Some audio_file, Some (AudioScript.analysis sr cough_frames)) in
  let text := (Some text_file, Some (Note.to_json (Note.analyze_owner_note note))) in
  let x := AudioScript.risk_score (AudioScript.timestamps sr cough_frames) in
  let y := Note.text_risk_score (Note.analyze_owner_note note) in
  FusionScript.audio_risk_score (FusionScript.main audio text) = Some (Json.Num x) /\
  FusionScript.text_risk_score (FusionScript.main audio text) = Some (Json.Num y) /\
  exists f, FusionScript.fused_risk_score (FusionScript.main audio text) = Some f /\
            f == (x + y) / 2.
Proof.
  intros Ha Ht audio text x y.
  apply String.eqb_neq in Ha, Ht.
  apply main_two_numbers.
  - unfold FusionScript.audio_score, FusionScript.usable, audio.
    rewrite Ha. reflexivity.
  - unfold FusionScript.text_score, FusionScript.usable, text.
    rewrite Ht. reflexivity.
Qed.

Lemma main_reads_the_scripts_witness :
  let audio_file := "results/audio_analysis_20240101_120000.json"%string in
  let text_file := "results/text_analysis_20240101_120500.json"%string in
  let note := "hacking cough after daycare"%string in
  let audio := (Some audio_file, Some (AudioScript.analysis 22050 [3; 4; 5; 40; 41]%nat)) in
  let text := (Some text_file, Some (Note.to_json (Note.analyze_owner_note note))) in
  let x := AudioScript.risk_score (AudioScript.timestamps 22050 [3; 4; 5; 40; 41]%nat) in
  let y := Note.text_risk_score (Note.analyze_owner_note note) in
  (audio_file <> ""%string /\ text_file <> ""%string) /\
  (FusionScript.audio_risk_score (FusionScript.main audio text) = Some (Json.Num x) /\
   FusionScript.text_risk_score (FusionScript.main audio text) = Some (Json.Num y) /\
   exists f, FusionScript.fused_risk_score (FusionScript.main audio text) = Some f /\
             f == (x + y) / 2).
Proof.
  intros audio_file text_file note audio text x y.
  assert (Ha : audio_file <> ""%string) by discriminate.
  assert (Ht : text_file <> ""%string) by discriminate.
  exact (conj (conj Ha Ht)
              (main_reads_the_scripts audio_file text_file 22050 [3; 4; 5; 40; 41]%nat
                 note Ha Ht)).
Defined.

(** ** streamlit_app.py: the analysis behind the button *)

Lemma round_idem (q : Q) (n : nat) : Py.round (Py.round q n) n = Py.round q n.
Proof.
  pose proof (pow10_pos n) as Hp.
  assert (Hne : ~ inject_Z (Py.pow10 n) == 0)
    by (intros E; rewrite E in Hp; discriminate Hp).
  unfold Py.round at 2.
  set (z := Py.round_half_even (q * inject_Z (Py.pow10 n))).
  rewrite (round_comp n _ (inject_Z z / inject_Z (Py.pow10 n)))
    by apply Qred_correct.
  unfold Py.round.
  assert (E : inject_Z z / inject_Z (Py.pow10 n) * inject_Z (Py.pow10 n) == inject_Z z)
    by (field; exact Hne).
  rewrite (round_half_even_at _ z) by (rewrite E; lra).
  reflexivity.
Qed.

Lemma severity_le_1 (owner_note : string) :
  Text.severity_score (Text.run_text owner_note) <= 1.
Proof.
  unfold Text.run_text.
  destruct (Text.lower (Text.strip (Text.chars owner_note))) as [| c t].
  - discriminate.
  - destruct (fold_left _ _ _) as [modifiers intensity]. cbn [Text.severity_score].
    apply Qle_trans with 1.0; [apply min2_le_l | discriminate].
Qed.

Section AppFacts.

Import App.

Variables (len_y : N) (sr : positive) (rms : list Q).
Variable (owner_note : string).

(** The score the page shows is the score [run_fusion] returned: rounding to
    3 decimals a second time changes nothing. *)
Theorem assess_shown_score (image_file : option image) (r : report) :
  assess len_y sr rms image_file owner_note = Some r ->
  shown_score r = Fusion.risk_score (fusion_out r).
Proof.
  unfold assess. destruct (Audio.run_audio len_y sr rms) as [audio_res |];
    [| discriminate].
  intros H. apply Some_inj in H. subst r. cbn [shown_score fusion_out].
  unfold Fusion.run_fusion. cbn [Fusion.risk_score]. apply round_idem.
Qed.

(** With fewer than 4 cough events and no image the result is never High,
    whatever the owner wrote: the risk score is at most 0.334. *)
Theorem assess_few_events_no_image (audio_res : Audio.result) :
  Audio.run_audio len_y sr rms = Some audio_res ->
  (Audio.events audio_res < 4)%nat ->
  exists r, assess len_y sr rms None owner_note = Some r /\
            Fusion.risk_level (fusion_out r) <> Fusion.High /\
            Fusion.risk_score (fusion_out r) <= 0.334.
Proof.
  intros Ha Hn. unfold assess. rewrite Ha. eexists. split; [reflexivity |].
  cbn [fusion_out].
  assert (Hc : Audio.cough_score audio_res <= 0.224).
  { revert Ha Hn. unfold Audio.run_audio.
    destruct (Audio.smooth rms) as [s |]; [| discriminate].
    intros H. apply Some_inj in H. subst audio_res.
    cbn [Audio.cough_score Audio.events]. intros Hn.
    apply Qle_trans with (Py.round 0.224 3); [| discriminate].
    apply round_mono, score_few_events, Hn. }
  pose proof (severity_le_1 owner_note) as Ht.
  unfold Fusion.run_fusion, audio_out_of, text_out_of, no_image.
  cbn [Fusion.risk_level Fusion.risk_score Fusion.cough_score Fusion.dog_detected
       Fusion.dog_conf Fusion.severity_score Py.get Py.truthy].
  set (a := Audio.cough_score audio_res) in *.
  set (t := Text.severity_score (Text.run_text owner_note)) in *.
  assert (Hs : Fusion.weighted_sum a 0.0 t <= 0.3344)
    by (unfold Fusion.weighted_sum; lra).
  split.
  - intros Hh. apply level_of_High in Hh. lra.
  - apply Qle_trans with (Py.round 0.3344 3); [apply round_mono, Hs | discriminate].
Qed.

End AppFacts.

Lemma severity_ge_0 (owner_note : string) :
  0 <= Text.severity_score (Text.run_text owner_note).
Proof.
  unfold Text.run_text.
  destruct (Text.lower (Text.strip (Text.chars owner_note))) as [| c t].
  - discriminate.
  - set (t' := c :: t).
    assert (H0 : 0 <= snd (@nil string, 0.0)) by discriminate.
    pose proof (intensity_nonneg t' Text.modifier_rules ([], 0.0)
                  modifier_weights_nonneg H0) as Hi.
    destruct (fold_left (Text.apply_modifier t') Text.modifier_rules ([], 0.0))
      as [modifiers intensity].
    cbn [Text.severity_score]. simpl snd in Hi.
    assert (Hs : 0 <= Py.sum (map (fun k => Text.weights_get Text.weights k 0.10)
                                  (Text.dedup (Text.detect t')))).
    { unfold Py.sum. apply fold_plus_nonneg; [| apply Qle_refl].
      apply Forall_forall. intros x Hx. apply in_map_iff in Hx as (k & <- & _).
      apply weights_get_nonneg; [apply weights_nonneg | discriminate]. }
    unfold Py.min2. by_cases_on_comparisons; [| discriminate].
    apply Qle_trans with (Py.round 0 3); [discriminate | apply round_mono; lra].
Qed.

Lemma cough_score_ge_0 (len_y : N) (sr : positive) (rms : list Q) (r : Audio.result) :
  Audio.run_audio len_y sr rms = Some r -> 0 <= Audio.cough_score r.
Proof.
  unfold Audio.run_audio. destruct (Audio.smooth rms) as [s |]; [| discriminate].
  intros H. apply Some_inj in H. subst r. cbn [Audio.cough_score].
  apply round_unit_interval; apply score_unit_interval.
Qed.

Lemma share_bounds (a v t : Q) :
  0 <= a -> 0 <= v -> 0 <= t ->
  let total := a + v + t + (1 # 1000000000) in
  0 <= a / total /\ 0 <= v / total /\ 0 <= t / total /\
  a / total + v / total + t / total < 1 /\
  (0 < v -> 0 < v / total).
Proof.
  intros Ha Hv Ht total.
  assert (Hpos : 0 < total) by (unfold total; lra).
  assert (Hne : ~ total == 0) by (intros E; rewrite E in Hpos; discriminate Hpos).
  assert (Hdiv : forall x, 0 <= x -> 0 <= x / total).
  { intros x Hx. apply Qle_shift_div_l; [exact Hpos | lra]. }
  repeat split; try (apply Hdiv; assumption).
  - assert (E : a / total + v / total + t / total == (a + v + t) / total)
      by (field; exact Hne).
    rewrite E. apply Qlt_shift_div_r; [exact Hpos |]. unfold total. lra.
  - intros Hv'. apply Qlt_shift_div_l; [exact Hpos | lra].
Qed.

Section Breakdown.

Import App.

Variables (audio_out : Fusion.audio_dict) (vision_out : Fusion.vision_dict)
          (text_out : Fusion.text_dict).

(** For scores that are not negative, the three shares of the breakdown are
    not negative and add up to less than 1 (the total never being 0, no
    share is undefined): each is a valid argument of a progress bar. *)
Theorem contributions_shares :
  0 <= Py.get (Fusion.cough_score audio_out) 0.0 ->
  0 <= Py.get (Fusion.dog_conf vision_out) 0.0 ->
  0 <= Py.get (Fusion.severity_score text_out) 0.0 ->
  let b := contributions audio_out vision_out text_out in
  0 <= audio_pct b /\ 0 <= vision_pct b /\ 0 <= text_pct b /\
  audio_pct b + vision_pct b + text_pct b < 1.
Proof.
  intros Ha Hv Ht b.
  destruct (share_bounds _ _ _ Ha Hv Ht) as (H1 & H2 & H3 & H4 & _).
  unfold b, contributions. cbn [audio_pct vision_pct text_pct].
  repeat split; assumption.
Qed.

End Breakdown.

Lemma contributions_shares_witness :
  let audio_out := Fusion.audio_of 0.13 in
  let vision_out := Fusion.vision_of true 0.8 in
  let text_out := Fusion.text_of 0.65 [] in
  let b := App.contributions audio_out vision_out text_out in
  (0 <= Py.get (Fusion.cough_score audio_out) 0.0 /\
   0 <= Py.get (Fusion.dog_conf vision_out) 0.0 /\
   0 <= Py.get (Fusion.severity_score text_out) 0.0) /\
  (0 <= App.audio_pct b /\ 0 <= App.vision_pct b /\ 0 <= App.text_pct b /\
   App.audio_pct b + App.vision_pct b + App.text_pct b < 1).
Proof.
  intros audio_out vision_out text_out b.
  assert (Ha : 0 <= Py.get (Fusion.cough_score audio_out) 0.0) by discriminate.
  assert (Hv : 0 <= Py.get (Fusion.dog_conf vision_out) 0.0) by discriminate.
  assert (Ht : 0 <= Py.get (Fusion.severity_score text_out) 0.0) by discriminate.
  exact (conj (conj Ha (conj Hv Ht))
              (contributions_shares audio_out vision_out text_out Ha Hv Ht)).
Defined.

Section UndetectedDog.

Import App.

Variables (len_y : N) (sr : positive) (rms : list Q).
Variable (owner_note : string).
Variables (boxes : list Vision.detection) (h w : positive).

(** When the image holds a dog box that [run_vision] does not accept
    ([dog_detected] false, [dog_conf] positive), the risk is computed as
    without an image, while the breakdown shows a positive share for
    vision: [run_fusion] reads [dog_conf] only when [dog_detected] is true,
    the breakdown always. *)
Theorem assess_undetected_dog (r : report) :
  assess len_y sr rms (Some (boxes, h, w)) owner_note = Some r ->
  Vision.dog_detected (Vision.run_vision boxes h w) = false ->
  0 < Vision.dog_conf (Vision.run_vision boxes h w) ->
  (exists r0, assess len_y sr rms None owner_note = Some r0 /\
              fusion_out r = fusion_out r0 /\
              vision_pct (shares r0) == 0) /\
  0 < vision_pct (shares r).
Proof.
  unfold assess.
  destruct (Audio.run_audio len_y sr rms) as [audio_res |] eqn:Ha; [| discriminate].
  intros H Hd Hc. apply Some_inj in H. subst r.
  cbn [fusion_out shares].
  pose proof (cough_score_ge_0 _ _ _ _ Ha) as Ha0.
  pose proof (severity_ge_0 owner_note) as Ht0.
  split.
  - eexists. split; [reflexivity |]. cbn [fusion_out shares]. split.
    + unfold Fusion.run_fusion, vision_out_of, no_image.
      cbn [Fusion.dog_detected Fusion.dog_conf Py.truthy Py.get]. rewrite Hd.
      reflexivity.
    + unfold contributions, no_image. cbn [vision_pct Fusion.dog_conf Py.get].
      unfold Qdiv. ring.
  - unfold contributions, vision_out_of, audio_out_of, text_out_of.
    cbn [vision_pct Fusion.dog_conf Fusion.cough_score Fusion.severity_score Py.get].
    apply (share_bounds _ _ _ Ha0 (Qlt_le_weak _ _ Hc) Ht0). exact Hc.
Qed.

End UndetectedDog.

Lemma assess_undetected_dog_witness :
  let r := {| App.fusion_out :=
                {| Fusion.risk_score := 39 # 500; Fusion.risk_level := Fusion.Low;
                   Fusion.explanation := [Spec.no_signal_line] |};
              App.shown_score := 39 # 500;
              App.shares :=
                App.contributions (Fusion.audio_of (13 # 100))
                                  (Fusion.vision_of false (4 # 5))
                                  (Fusion.text_of 0.0 []) |} in
  (App.assess 60416 22050 Audio.one_burst (Some Spec.vetoed_image) "" = Some r /\
   Vision.dog_detected (Vision.run_vision [Spec.a_dog; Spec.a_car] 100 100) = false /\
   0 < Vision.dog_conf (Vision.run_vision [Spec.a_dog; Spec.a_car] 100 100)) /\
  ((exists r0, App.assess 60416 22050 Audio.one_burst None "" = Some r0 /\
               App.fusion_out r = App.fusion_out r0 /\
               App.vision_pct (App.shares r0) == 0) /\
   0 < App.vision_pct (App.shares r)).
Proof.
  intros r.
  assert (H : App.assess 60416 22050 Audio.one_burst (Some Spec.vetoed_image) "" = Some r)
    by (vm_compute; reflexivity).
  assert (Hd : Vision.dog_detected (Vision.run_vision [Spec.a_dog; Spec.a_car] 100 100)
               = false) by (vm_compute; reflexivity).
  assert (Hc : 0 < Vision.dog_conf (Vision.run_vision [Spec.a_dog; Spec.a_car] 100 100))
    by (vm_compute; reflexivity).
  exact (conj (conj H (conj Hd Hc))
              (assess_undetected_dog 60416 22050 Audio.one_burst "" [Spec.a_dog; Spec.a_car]
                 100 100 r H Hd Hc)).
Defined.

Lemma assess_shown_score_witness :
  let r := {| App.fusion_out :=
                {| Fusion.risk_score := 39 # 500; Fusion.risk_level := Fusion.Low;
                   Fusion.explanation := [Spec.no_signal_line] |};
              App.shown_score := 39 # 500;
              App.shares :=
                App.contributions (Fusion.audio_of (13 # 100))
                                  (Fusion.vision_of false (4 # 5))
                                  (Fusion.text_of 0.0 []) |} in
  App.assess 60416 22050 Audio.one_burst (Some Spec.vetoed_image) "" = Some r /\
  App.shown_score r = Fusion.risk_score (App.fusion_out r).
Proof.
  intros r.
  assert (H : App.assess 60416 22050 Audio.one_burst (Some Spec.vetoed_image) "" = Some r)
    by (vm_compute; reflexivity).
  exact (conj H (assess_shown_score 60416 22050 Audio.one_burst ""
                   (Some Spec.vetoed_image) r H)).
Defined.

Lemma assess_few_events_no_image_witness :
  let audio_res := {| Audio.cough_score := 0.13; Audio.events := 1;
                      Audio.timestamps := [0.33] |} in
  let note := "hacking cough every day, not eating, very tired"%string in
  (Audio.run_audio 60416 22050 Audio.one_burst = Some audio_res /\
   (Audio.events audio_res < 4)%nat) /\
  exists r, App.assess 60416 22050 Audio.one_burst None note = Some r /\
            Fusion.risk_level (App.fusion_out r) <> Fusion.High /\
            Fusion.risk_score (App.fusion_out r) <= 0.334.
Proof.
  intros audio_res note.
  assert (H : Audio.run_audio 60416 22050 Audio.one_burst = Some audio_res)
    by (vm_compute; reflexivity).
  assert (Hn : (Audio.events audio_res < 4)%nat) by (simpl; lia).
  exact (conj (conj H Hn)
              (assess_few_events_no_image 60416 22050 Audio.one_burst note audio_res H Hn)).
Defined.

(** ** text_prototype.py: the intensity modifiers *)

Section Modifiers.

Import Text TextSpec Spec.

Local Open Scope string_scope.



End Modifiers.

